(** * FPGA GPIO controller: a shallow embedding of [fpga_gpio_controller.py]

    The controller listens on an MQTT bus for commands of the form
    [fpga/command/<fpga>/<user>], drives one GPIO line per command through
    the [pinctrl] command-line tool (one subprocess per operation), and
    echoes the payload on [fpga/status/<fpga>/<user>].

    Python objects are embedded as follows.
    - [str] is a list of Unicode code points ([pystr]); [bytes] is a list of
      [Byte.byte].
    - The module-level dictionary [GPIO_PINS] is only read and iterated, in
      insertion order: it is an association list.  The module-level
      dictionary [current_state] is only indexed and updated: it is a
      [gmap] of [gmap]s.
    - Everything the program does to the outside (subprocesses, the MQTT
      client) goes through a small state-and-exception monad over a record
      [Sys] that also keeps the history of what was done.
    - Logging and [time.sleep] have no influence on any value the program
      computes and are left out.

    The script [scripts/start_webserver.py], which serves the operator page,
    is embedded in [Module WebServer] over a record of what the operating
    system answers. *)

From Stdlib Require Import ZArith NArith List Bool Ascii String Lia.
From Stdlib.Strings Require Import Byte.
From Stdlib Require Import DecimalString DecimalPos DecimalZ.
From stdpp Require Import base option list gmap.

Local Open Scope N_scope.

(** ** Text *)

(** A Python [str]: its code points in order. *)
Abbreviation pystr := (list N).

(** A source-code string literal.  Every literal of the program is ASCII, so
    each character is its own code point. *)
Definition py (s : string) : list N :=
  map N_of_ascii (list_ascii_of_string s).

(** [str.isspace] on one character, which is what [str.strip()] removes. *)
Definition is_space (c : N) : bool :=
  ((9 <=? c) && (c <=? 13)) || ((28 <=? c) && (c <=? 32))
  || (c =? 133) || (c =? 160) || (c =? 5760)
  || ((8192 <=? c) && (c <=? 8202))
  || (c =? 8232) || (c =? 8233) || (c =? 8239) || (c =? 8287) || (c =? 12288).

Fixpoint lstrip (s : list N) : list N :=
  match s with
  | c :: s' => if is_space c then lstrip s' else s
  | [] => []
  end.

Definition rstrip (s : list N) : list N := rev (lstrip (rev s)).

(** [s.strip()] *)
Definition strip (s : list N) : list N := rstrip (lstrip s).

Definition is_ascii (c : N) : bool := c <? 128.

Definition ascii_lower (c : N) : N :=
  if (65 <=? c) && (c <=? 90) then c + 32 else c.

(** [s.split(sep)] for a one-character separator: one more part than there
    are separators, empty parts kept. *)
Fixpoint split (sep : N) (s : list N) : list (list N) :=
  match s with
  | [] => [[]]
  | c :: s' =>
      if c =? sep then [] :: split sep s'
      else match split sep s' with
           | p :: ps => (c :: p) :: ps
           | [] => [[c]]
           end
  end.

(** [sep.join(parts)] *)
Fixpoint join (sep : N) (parts : list (list N)) : list N :=
  match parts with
  | [] => []
  | [p] => p
  | p :: ps => p ++ sep :: join sep ps
  end.

(** [f"{n}"] for an [int]. *)
Definition format_int (n : Z) : list N :=
  py (NilZero.string_of_int (Z.to_int n)).

Definition str_eqb (a b : list N) : bool := bool_decide (a = b).

(** ** UTF-8 *)

Definition continuation (b : N) : bool := (128 <=? b) && (b <=? 191).

Definition between (lo hi b : N) : bool := (lo <=? b) && (b <=? hi).

(** [bytes.decode('utf-8')] with the default strict error handler: [None]
    stands for [UnicodeDecodeError].  Only shortest-form encodings of
    scalar values are accepted. *)
Fixpoint utf8_decode_N (bs : list N) : option (list N) :=
  match bs with
  | [] => Some []
  | b0 :: r0 =>
      if b0 <? 128 then cons b0 <$> utf8_decode_N r0
      else
        match r0 with
        | [] => None
        | b1 :: r1 =>
            if between 194 223 b0 then
              if continuation b1
              then cons ((b0 - 192) * 64 + (b1 - 128)) <$> utf8_decode_N r1
              else None
            else
              match r1 with
              | [] => None
              | b2 :: r2 =>
                  if between 224 239 b0 then
                    if (if b0 =? 224 then between 160 191 b1
                        else if b0 =? 237 then between 128 159 b1
                        else continuation b1) && continuation b2
                    then cons ((b0 - 224) * 4096 + (b1 - 128) * 64 + (b2 - 128))
                           <$> utf8_decode_N r2
                    else None
                  else
                    match r2 with
                    | [] => None
                    | b3 :: r3 =>
                        if between 240 244 b0 then
                          if (if b0 =? 240 then between 144 191 b1
                              else if b0 =? 244 then between 128 143 b1
                              else continuation b1)
                             && continuation b2 && continuation b3
                          then cons ((b0 - 240) * 262144 + (b1 - 128) * 4096
                                     + (b2 - 128) * 64 + (b3 - 128))
                                 <$> utf8_decode_N r3
                          else None
                        else None
                    end
              end
        end
  end.

Definition utf8_decode (bs : list byte) : option (list N) :=
  utf8_decode_N (map Byte.to_N bs).

(** The bytes of an ASCII literal, as a client would send them. *)
Definition ascii_bytes (s : string) : list byte :=
  map byte_of_ascii (list_ascii_of_string s).

(** ** Dictionaries that are iterated *)

(** A Python [dict] with [str] keys whose insertion order is observed. *)
Abbreviation dict V := (list (pystr * V)).

(** [d[k]], [None] standing for [KeyError]. *)
Fixpoint dict_get {V} (d : dict V) (k : pystr) : option V :=
  match d with
  | [] => None
  | (k', v) :: d' => if str_eqb k' k then Some v else dict_get d' k
  end.

(** [k in d] *)
Definition dict_mem {V} (d : dict V) (k : pystr) : bool :=
  match dict_get d k with Some _ => true | None => false end.

(** ** Module-level data *)

(** GPIO pin assignments: 12 LEDs, 4 per FPGA. *)
Definition GPIO_PINS : dict (dict Z) :=
  [ (py "fpga1", [ (py "dan", 18); (py "nate", 19); (py "ben", 20); (py "loaded", 21) ]%Z);
    (py "fpga2", [ (py "dan", 22); (py "nate", 23); (py "ben", 24); (py "loaded", 25) ]%Z);
    (py "fpga3", [ (py "dan", 26); (py "nate", 27); (py "ben", 13); (py "loaded", 6) ]%Z) ].

Definition all_off : gmap pystr bool :=
  list_to_map [ (py "dan", false); (py "nate", false); (py "ben", false);
                (py "loaded", false) ].

(** The value [current_state] is bound to when the module is loaded. *)
Definition initial_current_state : gmap pystr (gmap pystr bool) :=
  list_to_map [ (py "fpga1", all_off); (py "fpga2", all_off); (py "fpga3", all_off) ].

(** [fpga_id in GPIO_PINS and user_type in GPIO_PINS[fpga_id]] *)
Definition registered (fpga_id user_type : pystr) : bool :=
  match dict_get GPIO_PINS fpga_id with
  | Some pins => dict_mem pins user_type
  | None => false
  end.

(** ** The outside world and the program state *)

(** What [subprocess.run(cmd, shell=True, capture_output=True, text=True)]
    can do: complete with a return code and captured output, or raise (an
    [OSError], a decoding error of the output, ...). *)
Inductive proc_outcome :=
| Completed (returncode : Z) (stdout : pystr)
| RunError (msg : pystr).

(** One subprocess that was run: the shell command and what came of it. *)
Abbreviation call := (pystr * proc_outcome)%type.

Inductive mqtt_event :=
| Connect
| LoopStart
| Subscribe (topic : pystr)
| Publish (topic payload : pystr)
| Disconnect.

Inductive exn :=
| Exception (msg : pystr)
| KeyError (key : pystr)
| UnicodeDecodeError
| ConnectionRefusedError
| SystemExit (code : Z).

(** [isinstance(e, Exception)]: what [except Exception] catches.
    [SystemExit] derives from [BaseException] only. *)
Definition is_Exception (e : exn) : bool :=
  match e with SystemExit _ => false | _ => true end.

Record Sys := mkSys {
  calls : list call;            (* subprocesses run so far, oldest first *)
  current_state : gmap pystr (gmap pystr bool);
  mqtt_client : bool;           (* [self.mqtt_client] is not [None] *)
  running : bool;               (* [self.running] *)
  handlers : bool;              (* SIGINT and SIGTERM are bound to [cleanup_and_exit] *)
  bus : list mqtt_event         (* what was asked of the MQTT client, oldest first *)
}.

(** The state right after the module body ran, before [__main__]. *)
Definition module_state : Sys :=
  mkSys [] initial_current_state false false false [].

Definition set_calls (f : list call -> list call) (s : Sys) : Sys :=
  mkSys (f (calls s)) (current_state s) (mqtt_client s) (running s) (handlers s) (bus s).
Definition set_current_state (st : gmap pystr (gmap pystr bool)) (s : Sys) : Sys :=
  mkSys (calls s) st (mqtt_client s) (running s) (handlers s) (bus s).
Definition set_mqtt_client (b : bool) (s : Sys) : Sys :=
  mkSys (calls s) (current_state s) b (running s) (handlers s) (bus s).
Definition set_running (b : bool) (s : Sys) : Sys :=
  mkSys (calls s) (current_state s) (mqtt_client s) b (handlers s) (bus s).
Definition set_handlers (b : bool) (s : Sys) : Sys :=
  mkSys (calls s) (current_state s) (mqtt_client s) (running s) b (bus s).
Definition emit (e : mqtt_event) (s : Sys) : Sys :=
  mkSys (calls s) (current_state s) (mqtt_client s) (running s) (handlers s) (bus s ++ [e]).

(** ** Statements: state passing with exceptions *)

Inductive result (A : Type) :=
| Ok (a : A)
| Raise (e : exn).
Arguments Ok {A} a.
Arguments Raise {A} e.

(** A statement runs from a state and ends normally or by an exception; the
    state it leaves behind is kept either way. *)
Definition M (A : Type) : Type := Sys -> result A * Sys.

#[global] Instance M_ret : MRet M := fun A a s => (Ok a, s).

#[global] Instance M_bind : MBind M := fun A B f m s =>
  match m s with
  | (Ok a, s') => f a s'
  | (Raise e, s') => (Raise e, s')
  end.

Definition raise {A} (e : exn) : M A := fun s => (Raise e, s).

Definition gets {A} (f : Sys -> A) : M A := fun s => (Ok (f s), s).

Definition modify (f : Sys -> Sys) : M unit := fun s => (Ok tt, f s).

(** [try: body except Exception as e: handler(e)] *)
Definition try_except {A} (body : M A) (handler : exn -> M A) : M A := fun s =>
  match body s with
  | (Raise e, s') => if is_Exception e then handler e s' else (Raise e, s')
  | r => r
  end.

(** [for x in xs: body(x)] *)
Fixpoint for_each {X} (xs : list X) (body : X -> M unit) : M unit :=
  match xs with
  | [] => mret tt
  | x :: xs' => body x ;; for_each xs' body
  end.

(** [d[k]] as a statement. *)
Definition getitem {V} (d : dict V) (k : pystr) : M V :=
  match dict_get d k with
  | Some v => mret v
  | None => raise (KeyError k)
  end.

(** ** class IndividualPinController *)

Record MQTTMessage := mkMsg {
  topic : pystr;          (* [msg.topic] *)
  payload : list byte     (* [msg.payload] *)
}.

Section Controller.

(** What the next subprocess does, given every subprocess run before it and
    its shell command line. *)
Variable subprocess_run : list call -> pystr -> proc_outcome.

(** [str.lower] on text that is not pure ASCII: the case mapping of the
    Unicode character database, which belongs to the Python runtime. *)
Variable unicode_lower : pystr -> pystr.

(** Whether the broker on localhost:1883 accepts the connection. *)
Variable broker_up : bool.

(** [s.lower()] *)
Definition lower (s : pystr) : pystr :=
  if forallb is_ascii s then map ascii_lower s else unicode_lower s.

(** [subprocess.run(cmd, shell=True, capture_output=True, text=True)] *)
Definition run_shell (cmd : pystr) : M (Z * pystr) := fun s =>
  let o := subprocess_run (calls s) cmd in
  let s' := set_calls (fun cs => cs ++ [(cmd, o)]) s in
  match o with
  | Completed rc out => (Ok (rc, out), s')
  | RunError msg => (Raise (Exception msg), s')
  end.

(** Run [sudo pinctrl <command>]; an exception of the subprocess machinery
    is logged and turned into [False] with an empty output. *)
Definition run_pinctrl (command : pystr) : M (bool * pystr) :=
  try_except
    (let cmd := py "sudo pinctrl " ++ command in
     '(returncode, stdout) ← run_shell cmd;
     mret (Z.eqb returncode 0, strip stdout))
    (fun e => mret (false, [])).

(** Set pin as output. *)
Definition set_pin_output (pin : Z) : M bool :=
  '(success, output) ← run_pinctrl (py "set " ++ format_int pin ++ py " op");
  mret success.

(** Set pin high (3.3V): LED off for the UDN2981A. *)
Definition set_pin_high (pin : Z) : M bool :=
  '(success, output) ← run_pinctrl (py "set " ++ format_int pin ++ py " dh");
  mret success.

(** Set pin low (0V): LED on for the UDN2981A. *)
Definition set_pin_low (pin : Z) : M bool :=
  '(success, output) ← run_pinctrl (py "set " ++ format_int pin ++ py " dl");
  mret success.

(** Initialize all GPIO pins, LEDs off; the first pin that cannot be
    configured or driven high raises. *)
Definition setup_gpio : M unit :=
  for_each GPIO_PINS (fun '(fpga_id, pins) =>
    for_each pins (fun '(led_type, pin) =>
      ok ← set_pin_output pin;
      if negb ok then
        raise (Exception (py "Failed to set GPIO " ++ format_int pin ++ py " as output"))
      else
        ok ← set_pin_high pin;
        if negb ok then
          raise (Exception (py "Failed to set GPIO " ++ format_int pin ++ py " high"))
        else mret tt)).

(** [__init__] *)
Definition init : M unit :=
  modify (set_mqtt_client false) ;;
  modify (set_running false) ;;
  setup_gpio ;;
  modify (set_handlers true).

(** Create the MQTT client and connect it to localhost:1883. *)
Definition setup_mqtt : M unit :=
  modify (set_mqtt_client true) ;;
  if broker_up then modify (emit Connect) else raise ConnectionRefusedError.

(** MQTT connect callback: subscribe to every command topic. *)
Definition on_connect (rc : Z) : M unit :=
  if Z.eqb rc 0 then
    for_each GPIO_PINS (fun '(fpga_id, _) =>
      for_each [py "dan"; py "nate"; py "ben"; py "loaded"] (fun user_type =>
        modify (emit (Subscribe (py "fpga/command/" ++ fpga_id ++ py "/" ++ user_type)))))
  else mret tt.

(** Handle one pin command, with the inverted logic of the UDN2981A. *)
Definition handle_pin_command (fpga_id user_type value_str : pystr) : M unit :=
  pins ← getitem GPIO_PINS fpga_id;
  pin ← getitem pins user_type;
  let value := str_eqb (lower value_str) (py "true") in
  st ← gets current_state;
  match st !! fpga_id with
  | None => raise (KeyError fpga_id)
  | Some leds =>
      modify (set_current_state (<[fpga_id := <[user_type := value]> leds]> st)) ;;
      if value then set_pin_low pin ;; mret tt
      else set_pin_high pin ;; mret tt
  end.

(** MQTT message callback.  Whatever [Exception] the body raises is logged
    and dropped. *)
Definition on_message (msg : MQTTMessage) : M unit :=
  try_except
    (let topic := topic msg in
     decoded ← match utf8_decode (payload msg) with
               | Some text => mret text
               | None => raise UnicodeDecodeError
               end;
     let payload := strip decoded in
     let parts := split 47 topic in           (* [topic.split('/')] *)
     if (length parts =? 4)%nat && str_eqb (nth 0 parts []) (py "fpga")
        && str_eqb (nth 1 parts []) (py "command") then
       let fpga_id := nth 2 parts [] in
       let user_type := nth 3 parts [] in
       if registered fpga_id user_type then
         handle_pin_command fpga_id user_type payload ;;
         let status_topic := py "fpga/status/" ++ fpga_id ++ py "/" ++ user_type in
         modify (emit (Publish status_topic payload))
       else mret tt
     else mret tt)
    (fun e => mret tt).

(** Blink every LED once. *)
Definition test_all_leds : M unit :=
  for_each GPIO_PINS (fun '(fpga_id, pins) =>
    for_each pins (fun '(user_type, pin) =>
      set_pin_low pin ;;
      set_pin_high pin ;;
      mret tt)).

(** Clean shutdown, also the handler of SIGINT and SIGTERM: all LEDs off,
    disconnect, [sys.exit(0)]. *)
Definition cleanup_and_exit : M unit :=
  for_each GPIO_PINS (fun '(fpga_id, pins) =>
    for_each pins (fun '(user_type, pin) =>
      set_pin_high pin ;; mret tt)) ;;
  client ← gets mqtt_client;
  (if client : bool then modify (emit Disconnect) else mret tt) ;;
  raise (SystemExit 0).

(** [run], up to the point where it enters its idle loop. *)
Definition run : M unit :=
  test_all_leds ;;
  setup_mqtt ;;
  modify (set_running true) ;;
  modify (emit LoopStart).

(** [if __name__ == "__main__":] *)
Definition main : M unit :=
  init ;; run.

(** How the process stands after [main]: in its idle loop with the MQTT
    thread serving messages, ended by [sys.exit], or ended by an exception
    nobody caught (the interpreter prints the traceback and the exit status
    is 1). *)
Inductive outcome :=
| Serving
| Exited (code : Z)
| Crashed (e : exn).

Definition exit_status (o : outcome) : option Z :=
  match o with
  | Serving => None
  | Exited code => Some code
  | Crashed _ => Some 1%Z
  end.

Definition program : outcome * Sys :=
  match main module_state with
  | (Ok _, s) => (Serving, s)
  | (Raise (SystemExit code), s) => (Exited code, s)
  | (Raise e, s) => (Crashed e, s)
  end.

End Controller.

Arguments py : simpl never.
Arguments format_int : simpl never.

(** ** Vocabulary for the statements *)

(** The two electrical levels a line can be driven to. *)
Inductive Level := High | Low.

(** The shell command [set_pin_high] ([High]) and [set_pin_low] ([Low])
    hand to [subprocess.run] for a pin: [dh] drives the line to 3.3V and
    [dl] to 0V. *)
Definition level_cmd (pin : Z) (lv : Level) : pystr :=
  py "sudo pinctrl set " ++ format_int pin
  ++ match lv with High => py " dh" | Low => py " dl" end.

(** The shell command of [set_pin_output]. *)
Definition output_cmd (pin : Z) : pystr :=
  py "sudo pinctrl set " ++ format_int pin ++ py " op".

(** What [run_pinctrl] reports as [success] for an outcome. *)
Definition succeeded (o : proc_outcome) : bool :=
  match o with
  | Completed rc _ => Z.eqb rc 0
  | RunError _ => false
  end.

(** What [run_pinctrl] hands back as captured output. *)
Definition captured (o : proc_outcome) : pystr :=
  match o with
  | Completed _ out => strip out
  | RunError _ => []
  end.

(** The state after one more subprocess. *)
Definition ran (subprocess_run : list call -> pystr -> proc_outcome)
    (cmd : pystr) (s : Sys) : Sys :=
  set_calls (fun cs => cs ++ [(cmd, subprocess_run (calls s) cmd)]) s.

(** [GPIO_PINS[fpga_id][user_type]] *)
Definition line (fpga_id user_type : pystr) : option Z :=
  pins ← dict_get GPIO_PINS fpga_id; dict_get pins user_type.

(** [current_state[fpga_id][user_type]] in a state. *)
Definition line_state (s : Sys) (fpga_id user_type : pystr) : option bool :=
  leds ← current_state s !! fpga_id; leds !! user_type.

(** Every pin of the registry, in the order the loops over [GPIO_PINS]
    visit them. *)
Definition registry_pins : list Z :=
  flat_map (fun '(_, pins) => map snd pins) GPIO_PINS.

(** The level a command asks for: the inverted logic of the UDN2981A
    driver, LED on is line low. *)
Definition level_for (value : bool) : Level := if value then Low else High.

(** The [value] that [handle_pin_command] computes from its [value_str]. *)
Definition value_of (unicode_lower : pystr -> pystr) (value_str : pystr) : bool :=
  str_eqb (lower unicode_lower value_str) (py "true").

(** [current_state] has an entry for every FPGA of the registry, as it has
    when the module is loaded. *)
Definition covers_registry (s : Sys) : bool :=
  forallb (fun '(fpga_id, _) => bool_decide (is_Some (current_state s !! fpga_id)))
    GPIO_PINS.

(** The subprocesses a statement ran: the calls of the state after it that
    were not there before. *)
Definition new_calls (before after : Sys) : list call :=
  drop (length (calls before)) (calls after).

(** The body of the loop of [setup_gpio] for one pin. *)
Definition setup_pin (subprocess_run : list call -> pystr -> proc_outcome)
    (pin : Z) : M unit :=
  ok ← set_pin_output subprocess_run pin;
  if negb ok then
    raise (Exception (py "Failed to set GPIO " ++ format_int pin ++ py " as output"))
  else
    ok ← set_pin_high subprocess_run pin;
    if negb ok then
      raise (Exception (py "Failed to set GPIO " ++ format_int pin ++ py " high"))
    else mret tt.

(** The body of the loop of [cleanup_and_exit] for one pin. *)
Definition sweep_pin (subprocess_run : list call -> pystr -> proc_outcome)
    (pin : Z) : M unit :=
  set_pin_high subprocess_run pin ;; mret tt.

(** A state with more subprocesses in its history and nothing else changed. *)
Definition with_calls (new : list call) (s : Sys) : Sys :=
  set_calls (fun cs => cs ++ new) s.

(** Two environments used in the examples: a [pinctrl] that always works and
    one that is always refused. *)
Definition always_ok : list call -> pystr -> proc_outcome :=
  fun _ _ => Completed 0 [].

Definition always_refused : list call -> pystr -> proc_outcome :=
  fun _ _ => Completed 1 [].

(** A case mapping that leaves text other than ASCII alone. *)
Definition no_case : pystr -> pystr := fun s => s.

(** "The recorded state of a line reflects the last confirmed action": a
    command whose subprocess does not succeed is reported as failed and
    leaves the recorded state of its line as it was. *)
Definition state_reflects_confirmed_action
    (subprocess_run : list call -> pystr -> proc_outcome)
    (unicode_lower : pystr -> pystr) (g l v : pystr) (s : Sys) : Prop :=
  let r := handle_pin_command subprocess_run unicode_lower g l v s in
  (exists c, c ∈ new_calls s r.2 /\ succeeded c.2 = false) ->
  r.1 <> Ok tt /\ line_state r.2 g l = line_state s g l.

(** The status topic as the specification derives it: the topic of the
    command with its second segment replaced by [status]. *)
Definition spec_status_topic (topic : pystr) : pystr :=
  join 47 (<[1%nat := py "status"]> (split 47 topic)).

(** "The status message echoes the received payload verbatim": exactly one
    message is published, on the derived status topic, and its payload is
    the text that was received. *)
Definition echoes_payload_verbatim
    (subprocess_run : list call -> pystr -> proc_outcome)
    (unicode_lower : pystr -> pystr) (msg : MQTTMessage) (s : Sys) : Prop :=
  exists text,
    utf8_decode (payload msg) = Some text
    /\ bus (on_message subprocess_run unicode_lower msg s).2
       = bus s ++ [Publish (spec_status_topic (topic msg)) text].

(** "The parse of the payload never fails, and every payload that does not
    read true resolves to off": a command for a line records the line as on
    when the payload is text that reads true, and as off for every other
    payload. *)
Definition payload_always_resolves
    (subprocess_run : list call -> pystr -> proc_outcome)
    (unicode_lower : pystr -> pystr) (msg : MQTTMessage) (g l : pystr) (s : Sys) : Prop :=
  line_state (on_message subprocess_run unicode_lower msg s).2 g l
  = Some match utf8_decode (payload msg) with
         | Some text => value_of unicode_lower (strip text)
         | None => false
         end.

(** "After the shutdown sweep every line whose drive-high command succeeded
    is recorded as off." *)
Definition sweep_records_off
    (subprocess_run : list call -> pystr -> proc_outcome) (s : Sys) : Prop :=
  let s' := (cleanup_and_exit subprocess_run s).2 in
  forall g l pin o,
    line g l = Some pin ->
    (level_cmd pin High, o) ∈ new_calls s s' ->
    succeeded o = true ->
    line_state s' g l = Some false.

(** "A start-up that fails in [setup_gpio] still sweeps every line high and
    disconnects before the process ends with a status other than zero." *)
Definition fatal_startup_cleans_up
    (subprocess_run : list call -> pystr -> proc_outcome) (broker_up : bool) : Prop :=
  (exists e, (init subprocess_run module_state).1 = Raise e) ->
  let end_ := program subprocess_run broker_up in
  (forall pin, pin ∈ registry_pins -> exists o, (level_cmd pin High, o) ∈ calls end_.2)
  /\ Disconnect ∈ bus end_.2
  /\ (exists code, exit_status end_.1 = Some code /\ code <> 0%Z).

(** ** Vocabulary for whole runs *)

(** The body of the loop of [test_all_leds] for one pin. *)
Definition blink_pin (subprocess_run : list call -> pystr -> proc_outcome)
    (pin : Z) : M unit :=
  set_pin_low subprocess_run pin ;;
  set_pin_high subprocess_run pin ;;
  mret tt.

(** The MQTT thread hands the messages it receives to [on_message] one
    after the other. *)
Definition serve (subprocess_run : list call -> pystr -> proc_outcome)
    (unicode_lower : pystr -> pystr) (msgs : list MQTTMessage) : M unit :=
  for_each msgs (on_message subprocess_run unicode_lower).

(** What a statement asked of the MQTT client: the events of the state
    after it that were not there before. *)
Definition new_bus (before after : Sys) : list mqtt_event :=
  drop (length (bus before)) (bus after).

(** The topics [on_connect] subscribes to when the connection is accepted,
    in order. *)
Definition command_topics : list pystr :=
  omap (fun e => match e with Subscribe t => Some t | _ => None end)
    (bus (on_connect 0 module_state).2).

(** The command topic of a line. *)
Definition command_topic (fpga_id user_type : pystr) : pystr :=
  py "fpga/command/" ++ fpga_id ++ py "/" ++ user_type.

(** The recorded states are those of the lines of the registry, no more and
    no less. *)
Definition state_matches_registry (s : Sys) : Prop :=
  forall g l, is_Some (line_state s g l) <-> registered g l = true.

(** The value a message asks for a given line, if it is a command for that
    line with a payload that can be decoded. *)
Definition command_value (unicode_lower : pystr -> pystr)
    (g l : pystr) (msg : MQTTMessage) : option bool :=
  if str_eqb (topic msg) (command_topic g l) then
    (fun text => value_of unicode_lower (strip text)) <$> utf8_decode (payload msg)
  else None.

(** The value the last command for a line asked for, [None] when no message
    is a command for it. *)
Fixpoint last_command (unicode_lower : pystr -> pystr)
    (g l : pystr) (msgs : list MQTTMessage) : option bool :=
  match msgs with
  | [] => None
  | msg :: msgs' =>
      match last_command unicode_lower g l msgs' with
      | Some v => Some v
      | None => command_value unicode_lower g l msg
      end
  end.

(** The lines of the registry, in the order of [GPIO_PINS]. *)
Definition registry_lines : list (pystr * pystr) :=
  flat_map (fun '(g, pins) => map (fun '(l, _) => (g, l)) pins) GPIO_PINS.

(** The level of the last level command run for a pin, [None] when there
    was none. *)
Fixpoint last_level (cs : list call) (pin : Z) : option Level :=
  match cs with
  | [] => None
  | c :: cs' =>
      match last_level cs' pin with
      | Some lv => Some lv
      | None =>
          if str_eqb c.1 (level_cmd pin High) then Some High
          else if str_eqb c.1 (level_cmd pin Low) then Some Low
          else None
      end
  end.

(** The recorded state of every line agrees with the level that was last
    asked of its pin: recorded on, last driven low; recorded off, last
    driven high. *)
Definition state_tracks_levels (s : Sys) : Prop :=
  forall g l pin, line g l = Some pin ->
    exists v, line_state s g l = Some v
              /\ last_level (calls s) pin = Some (level_for v).

(** A subprocess that is a level command for a pin of the registry. *)
Definition level_call (c : call) : Prop :=
  exists pin lv, pin ∈ registry_pins /\ c.1 = level_cmd pin lv.

(** A status message for a registered line whose payload has no white space
    around it. *)
Definition status_echo (e : mqtt_event) : Prop :=
  exists g l p, registered g l = true
    /\ e = Publish (py "fpga/status/" ++ g ++ py "/" ++ l) p
    /\ strip p = p.

(** The entries of the registry: FPGA, LED and pin. *)
Definition registry_entries : list (pystr * pystr * Z) :=
  flat_map (fun '(g, pins) => map (fun '(l, pin) => (g, l, pin)) pins) GPIO_PINS.

(** ** scripts/start_webserver.py *)

Module WebServer.

(** How the server ends once [main] has entered its [try] block. *)
Inductive server_end :=
| BindError (errno : Z) (msg : pystr)     (* [TCPServer(...)] raises [OSError] *)
| Interrupted                             (* [KeyboardInterrupt] while serving *)
| ServeError (errno : Z) (msg : pystr)    (* [OSError] out of [serve_forever] *)
| OtherError                              (* any other exception while serving *)
| Returned.                               (* [serve_forever] returns *)

(** What the operating system answers to one run of the script. *)
Record Env := mkEnv {
  page_in_parent : bool;    (* the page exists in the directory above the script *)
  page_in_cwd : bool;       (* the page exists in the current directory *)
  chdir_fails : bool;       (* [os.chdir(parent_dir)] raises *)
  local_ip : option pystr;  (* the address of the UDP socket, [None] when that raises *)
  server : server_end
}.

Inductive event :=
| Chdir
| Print (line : pystr)
| Listen (port : Z)
| ServeForever.

(** How [main] ends: by [return], or by an exception nobody catches. *)
Inductive ending :=
| Return (code : option Z)
| Uncaught.

(** Get the local IP address. *)
Definition get_ip_address (env : Env) : pystr :=
  match local_ip env with
  | Some ip => ip
  | None => py "localhost"
  end.

Definition PORT : Z := 8080.

(** The body of [main] from [ip_address = get_ip_address()] on. *)
Definition start_server (env : Env) : list event * ending :=
  let ip_address := get_ip_address env in
  let banner :=
    [ Print (py "FPGA Controller Web Server");
      Print (py "Serving at: http://" ++ ip_address ++ py ":" ++ format_int PORT);
      Print (py "Local access: http://localhost:" ++ format_int PORT);
      Print (py "Web interface: http://" ++ ip_address ++ py ":" ++ format_int PORT
             ++ py "/fpga_controller.html");
      Print [];
      Print (py "Press Ctrl+C to stop the server");
      Print [];
      ServeForever ] in
  let on_oserror (errno : Z) (msg : pystr) :=
    if Z.eqb errno 98 then
      [ Print (py "Error: Port " ++ format_int PORT ++ py " is already in use!");
        Print (py "Try stopping any existing web servers or use a different port") ]
    else [ Print (py "Error starting server: " ++ msg) ] in
  match server env with
  | BindError errno msg => (on_oserror errno msg, Return (Some 1%Z))
  | Interrupted =>
      (Listen PORT :: banner ++ [Print (10 :: py "Shutting down web server...")],
       Return (Some 0%Z))
  | ServeError errno msg =>
      (Listen PORT :: banner ++ on_oserror errno msg, Return (Some 1%Z))
  | OtherError => (Listen PORT :: banner, Uncaught)
  | Returned => (Listen PORT :: banner, Return None)
  end.

Definition main (env : Env) : list event * ending :=
  if page_in_parent env then
    if chdir_fails env then ([], Uncaught)
    else let '(events, r) := start_server env in (Chdir :: events, r)
  else if negb (page_in_cwd env) then
    ([ Print (py "Error: fpga_controller.html not found!");
       Print (py "Please run this script from the fpga_controller directory") ],
     Return (Some 1%Z))
  else start_server env.

(** The exit status of [exit(main())]: the returned integer, 0 for [None],
    1 after the traceback of an uncaught exception. *)
Definition exit_status (r : ending) : Z :=
  match r with
  | Return (Some code) => code
  | Return None => 0
  | Uncaught => 1
  end.

End WebServer.

(** * Properties *)

(** ** Text *)

Example split_topic :
  split 47 (py "fpga/command/fpga1/dan")
  = [py "fpga"; py "command"; py "fpga1"; py "dan"].
Proof. reflexivity. Qed.

Example split_trailing : split 47 (py "a//b/") = [py "a"; []; py "b"; []].
Proof. reflexivity. Qed.

Example strip_padded : strip ([32; 9] ++ py "True" ++ [13; 10]) = py "True".
Proof. reflexivity. Qed.

Example format_pin : format_int 18 = py "18".
Proof. reflexivity. Qed.

Example decode_ascii : utf8_decode (ascii_bytes "true") = Some (py "true").
Proof. reflexivity. Qed.

Example decode_two_bytes : utf8_decode_N [195; 169] = Some [233].
Proof. reflexivity. Qed.

Example decode_invalid : utf8_decode [xff] = None.
Proof. reflexivity. Qed.

Lemma join_cons sep p q ps :
  join sep (p :: q :: ps) = p ++ sep :: join sep (q :: ps).
Proof. reflexivity. Qed.

Lemma split_not_nil sep s : split sep s <> [].
Proof.
  destruct s as [|c s]; simpl; [discriminate|].
  destruct (c =? sep); [discriminate|].
  destruct (split sep s); discriminate.
Qed.

(** Joining the parts of a split gives the text back. *)
Lemma join_split sep s : join sep (split sep s) = s.
Proof.
  induction s as [|c s IH]; simpl; [reflexivity|].
  destruct (N.eqb_spec c sep) as [->|Hne].
  - pose proof (split_not_nil sep s) as Hnil.
    destruct (split sep s) as [|q qs]; [contradiction|].
    rewrite join_cons, IH. reflexivity.
  - pose proof (split_not_nil sep s) as Hnil.
    destruct (split sep s) as [|q qs]; [contradiction|].
    destruct qs as [|q' qs]; simpl in *; rewrite <- IH; reflexivity.
Qed.

Lemma str_eqb_eq a b : str_eqb a b = true <-> a = b.
Proof. unfold str_eqb. apply bool_decide_eq_true. Qed.

(** ** Dictionaries *)

Lemma dict_get_elem_of {V} (d : dict V) k v :
  dict_get d k = Some v -> (k, v) ∈ d.
Proof.
  induction d as [|[k' v'] d IH]; simpl; [discriminate|].
  destruct (str_eqb k' k) eqn:E.
  - intros [= ->]. apply str_eqb_eq in E as ->. left.
  - intros H. right. auto.
Qed.

Lemma line_registered g l pin : line g l = Some pin -> registered g l = true.
Proof.
  unfold line, registered, dict_mem.
  destruct (dict_get GPIO_PINS g) as [pins|]; simpl; [|discriminate].
  intros ->. reflexivity.
Qed.

Lemma registered_line g l : registered g l = true -> exists pin, line g l = Some pin.
Proof.
  unfold line, registered, dict_mem.
  destruct (dict_get GPIO_PINS g) as [pins|]; simpl; [|discriminate].
  destruct (dict_get pins l) as [pin|]; [eauto|discriminate].
Qed.

Lemma dict_get_in_pins (d : dict (dict Z)) g l pins pin :
  dict_get d g = Some pins -> dict_get pins l = Some pin ->
  pin ∈ flat_map (fun '(_, pins) => map snd pins) d.
Proof.
  intros Eg El. apply dict_get_elem_of in Eg, El.
  apply list_elem_of_In, in_flat_map. exists (g, pins). split.
  - apply list_elem_of_In, Eg.
  - apply in_map_iff. exists (l, pin). split; [reflexivity|].
    apply list_elem_of_In, El.
Qed.

Lemma line_in_registry g l pin : line g l = Some pin -> pin ∈ registry_pins.
Proof.
  unfold line, registry_pins.
  destruct (dict_get GPIO_PINS g) as [pins|] eqn:Eg; [|discriminate].
  intros El. exact (dict_get_in_pins _ _ _ _ _ Eg El).
Qed.

(** ** The driver: one subprocess per operation *)

Section Driver.

Variable subprocess_run : list call -> pystr -> proc_outcome.

Local Abbreviation ran := (ran subprocess_run).

Lemma run_pinctrl_eq command s :
  run_pinctrl subprocess_run command s
  = (Ok (succeeded (subprocess_run (calls s) (py "sudo pinctrl " ++ command)),
         captured (subprocess_run (calls s) (py "sudo pinctrl " ++ command))),
     ran (py "sudo pinctrl " ++ command) s).
Proof.
  unfold run_pinctrl, try_except, mbind, M_bind, run_shell, ran.
  destruct (subprocess_run (calls s) (py "sudo pinctrl " ++ command));
    reflexivity.
Qed.

Lemma set_pin_output_eq pin s :
  set_pin_output subprocess_run pin s
  = (Ok (succeeded (subprocess_run (calls s) (output_cmd pin))),
     ran (output_cmd pin) s).
Proof.
  unfold set_pin_output, mbind, M_bind. rewrite run_pinctrl_eq. reflexivity.
Qed.

Lemma set_pin_high_eq pin s :
  set_pin_high subprocess_run pin s
  = (Ok (succeeded (subprocess_run (calls s) (level_cmd pin High))),
     ran (level_cmd pin High) s).
Proof.
  unfold set_pin_high, mbind, M_bind. rewrite run_pinctrl_eq. reflexivity.
Qed.

Lemma set_pin_low_eq pin s :
  set_pin_low subprocess_run pin s
  = (Ok (succeeded (subprocess_run (calls s) (level_cmd pin Low))),
     ran (level_cmd pin Low) s).
Proof.
  unfold set_pin_low, mbind, M_bind. rewrite run_pinctrl_eq. reflexivity.
Qed.

End Driver.

Lemma new_calls_app before after cs :
  calls after = calls before ++ cs -> new_calls before after = cs.
Proof. unfold new_calls. intros ->. apply drop_app_length. Qed.

Lemma level_cmd_tail pin lv :
  level_cmd pin lv
  = (py "sudo pinctrl set " ++ format_int pin ++ py " d")
    ++ [match lv with High => 104 | Low => 108 end].
Proof. unfold level_cmd. destruct lv; rewrite <- !app_assoc; reflexivity. Qed.

(** The last character of a level command tells the level, whatever the
    pin. *)
Lemma level_cmd_inj pin pin' lv lv' :
  level_cmd pin lv = level_cmd pin' lv' -> lv = lv'.
Proof.
  rewrite !level_cmd_tail. intros H.
  apply app_inj_tail in H as [_ H].
  destruct lv, lv'; try reflexivity; discriminate H.
Qed.

(** ** Handling one command *)

Section Commands.

Variable subprocess_run : list call -> pystr -> proc_outcome.
Variable unicode_lower : pystr -> pystr.

Local Abbreviation ran := (ran subprocess_run).
Local Abbreviation handle := (handle_pin_command subprocess_run unicode_lower).
Local Abbreviation route := (on_message subprocess_run unicode_lower).
Local Abbreviation value_of := (value_of unicode_lower).

(** On a registered line, [handle_pin_command] first records the wanted
    value, then runs the one level command for it, and returns normally
    whatever came of that command. *)
Lemma handle_pin_command_eq g l v pin leds s :
  line g l = Some pin ->
  current_state s !! g = Some leds ->
  handle g l v s
  = (Ok tt,
     ran (level_cmd pin (level_for (value_of v)))
       (set_current_state (<[g := <[l := value_of v]> leds]> (current_state s)) s)).
Proof.
  unfold line. intros Hline Hst.
  destruct (dict_get GPIO_PINS g) as [pins|] eqn:Eg; [|discriminate].
  simpl in Hline.
  unfold handle_pin_command, getitem, mbind, M_bind, gets, modify.
  rewrite Eg. unfold mret, M_ret. rewrite Hline, Hst.
  fold (value_of v).
  destruct (value_of v); simpl.
  - rewrite set_pin_low_eq. reflexivity.
  - rewrite set_pin_high_eq. reflexivity.
Qed.

(** Called for a pair that is not in [GPIO_PINS], [handle_pin_command]
    raises [KeyError] at its first line and has touched nothing. *)
Lemma handle_pin_command_unregistered g l v s :
  registered g l = false ->
  exists key, handle g l v s = (Raise (KeyError key), s).
Proof.
  unfold registered, dict_mem, handle_pin_command, getitem, mbind, M_bind.
  destruct (dict_get GPIO_PINS g) as [pins|]; [|eauto].
  unfold mret, M_ret.
  destruct (dict_get pins l); [discriminate|eauto].
Qed.

(** A command message for a registered line with a payload that is valid
    UTF-8: the command is handled with the stripped text, then the same
    stripped text is published on the status topic. *)
Lemma on_message_eq msg g l pin leds text s :
  split 47 (topic msg) = [py "fpga"; py "command"; g; l] ->
  line g l = Some pin ->
  current_state s !! g = Some leds ->
  utf8_decode (payload msg) = Some text ->
  route msg s
  = (Ok tt,
     emit (Publish (py "fpga/status/" ++ g ++ py "/" ++ l) (strip text))
       (ran (level_cmd pin (level_for (value_of (strip text))))
          (set_current_state
             (<[g := <[l := value_of (strip text)]> leds]> (current_state s)) s))).
Proof.
  intros Hsplit Hline Hst Hdec.
  unfold on_message, try_except, mbind, M_bind.
  rewrite Hdec, Hsplit. unfold mret, M_ret.
  change (nth 2 [py "fpga"; py "command"; g; l] []) with g.
  change (nth 3 [py "fpga"; py "command"; g; l] []) with l.
  change ((length [py "fpga"; py "command"; g; l] =? 4)%nat
          && str_eqb (nth 0 [py "fpga"; py "command"; g; l] []) (py "fpga")
          && str_eqb (nth 1 [py "fpga"; py "command"; g; l] []) (py "command"))
    with true.
  cbv iota. rewrite (line_registered _ _ _ Hline).
  rewrite (handle_pin_command_eq _ _ _ _ _ _ Hline Hst).
  reflexivity.
Qed.

(** A four-segment topic that names a pair outside the registry: the
    message changes nothing at all. *)
Lemma on_message_unregistered msg a b g l s :
  split 47 (topic msg) = [a; b; g; l] ->
  registered g l = false ->
  route msg s = (Ok tt, s).
Proof.
  intros Hsplit Hreg.
  unfold on_message, try_except, mbind, M_bind.
  rewrite Hsplit.
  destruct (utf8_decode (payload msg)) as [text|]; [|reflexivity].
  unfold mret, M_ret.
  change (nth 2 [a; b; g; l] []) with g.
  change (nth 3 [a; b; g; l] []) with l.
  rewrite Hreg.
  destruct ((length [a; b; g; l] =? 4)%nat && str_eqb (nth 0 [a; b; g; l] []) (py "fpga")
            && str_eqb (nth 1 [a; b; g; l] []) (py "command")); reflexivity.
Qed.

(** A payload that is not valid UTF-8 makes [decode] raise; the handler of
    [on_message] swallows the exception and nothing else happens. *)
Lemma on_message_undecodable msg s :
  utf8_decode (payload msg) = None -> route msg s = (Ok tt, s).
Proof.
  intros Hdec. unfold on_message, try_except, mbind, M_bind.
  rewrite Hdec. reflexivity.
Qed.

End Commands.

(** ** Loops over the registry *)

Lemma for_each_app {X} (xs ys : list X) (body : X -> M unit) s :
  for_each (xs ++ ys) body s = (for_each xs body ;; for_each ys body) s.
Proof.
  revert s. induction xs as [|x xs IH]; intros s; [reflexivity|].
  simpl. unfold mbind, M_bind in *.
  destruct (body x s) as [[[]|e] s1]; [apply IH|reflexivity].
Qed.

Lemma for_each_snd {K} (kvs : list (K * Z)) (body : Z -> M unit) s :
  for_each kvs (fun '(_, pin) => body pin) s = for_each (map snd kvs) body s.
Proof.
  revert s. induction kvs as [|[k pin] kvs IH]; intros s; [reflexivity|].
  simpl. unfold mbind, M_bind.
  destruct (body pin s) as [[[]|e] s1]; [apply IH|reflexivity].
Qed.

(** The nested loop over the FPGAs and their pins visits the pins of the
    registry one after the other. *)
Lemma for_each_pins (d : dict (dict Z)) (body : Z -> M unit) s :
  for_each d (fun '(_, pins) => for_each pins (fun '(_, pin) => body pin)) s
  = for_each (flat_map (fun '(_, pins) => map snd pins) d) body s.
Proof.
  revert s. induction d as [|[g pins] d IH]; intros s; [reflexivity|].
  simpl. rewrite for_each_app. unfold mbind, M_bind.
  rewrite for_each_snd.
  destruct (for_each (map snd pins) body s) as [[[]|e] s1]; [apply IH|reflexivity].
Qed.

Lemma with_calls_nil s : with_calls [] s = s.
Proof. destruct s. unfold with_calls, set_calls. simpl. by rewrite app_nil_r. Qed.

Lemma with_calls_app a b s : with_calls b (with_calls a s) = with_calls (a ++ b) s.
Proof. destruct s. unfold with_calls, set_calls. simpl. by rewrite app_assoc. Qed.

Lemma ran_with_calls run cmd s : ran run cmd s = with_calls [(cmd, run (calls s) cmd)] s.
Proof. reflexivity. Qed.

Section Loops.

Variable subprocess_run : list call -> pystr -> proc_outcome.

Local Abbreviation ran := (ran subprocess_run).

Lemma setup_gpio_eq s :
  setup_gpio subprocess_run s = for_each registry_pins (setup_pin subprocess_run) s.
Proof. exact (for_each_pins GPIO_PINS (setup_pin subprocess_run) s). Qed.

Lemma cleanup_sweep_eq s :
  for_each GPIO_PINS (fun '(fpga_id, pins) =>
    for_each pins (fun '(user_type, pin) =>
      set_pin_high subprocess_run pin ;; mret tt)) s
  = for_each registry_pins (sweep_pin subprocess_run) s.
Proof. exact (for_each_pins GPIO_PINS (sweep_pin subprocess_run) s). Qed.

(** One pin of [setup_gpio]: configure, then drive high, stopping with an
    exception at the first of the two that does not succeed. *)
Lemma setup_pin_eq pin s :
  setup_pin subprocess_run pin s
  = if succeeded (subprocess_run (calls s) (output_cmd pin)) then
      if succeeded (subprocess_run (calls (ran (output_cmd pin) s)) (level_cmd pin High))
      then (Ok tt, ran (level_cmd pin High) (ran (output_cmd pin) s))
      else (Raise (Exception (py "Failed to set GPIO " ++ format_int pin ++ py " high")),
            ran (level_cmd pin High) (ran (output_cmd pin) s))
    else (Raise (Exception (py "Failed to set GPIO " ++ format_int pin ++ py " as output")),
          ran (output_cmd pin) s).
Proof.
  unfold setup_pin, mbind, M_bind. rewrite set_pin_output_eq.
  destruct (succeeded (subprocess_run (calls s) (output_cmd pin))); simpl; [|reflexivity].
  rewrite set_pin_high_eq. simpl.
  destruct (succeeded _); reflexivity.
Qed.

(** What the loop of [setup_gpio] leaves behind.  It only adds subprocesses
    to the history.  When it ends normally each of them succeeded and every
    pin was configured and driven high; when it raises, the subprocess that
    did not succeed is the last one that was run. *)
Lemma setup_loop_spec pins s r s' :
  for_each pins (setup_pin subprocess_run) s = (r, s') ->
  exists new, s' = with_calls new s /\
    match r with
    | Ok _ =>
        Forall (fun c => succeeded c.2 = true) new
        /\ forall pin, pin ∈ pins ->
             (exists o, (output_cmd pin, o) ∈ new)
             /\ (exists o, (level_cmd pin High, o) ∈ new)
    | Raise e =>
        (exists msg, e = Exception msg)
        /\ exists pre bad, new = pre ++ [bad] /\ succeeded bad.2 = false
             /\ Forall (fun c => succeeded c.2 = true) pre
    end.
Proof.
  revert s. induction pins as [|pin pins IH]; intros s.
  - intros [= <- <-]. exists []. rewrite with_calls_nil. split; [done|].
    split; [constructor|]. intros pin Hin. inversion Hin.
  - simpl. unfold mbind, M_bind. rewrite setup_pin_eq.
    destruct (succeeded (subprocess_run (calls s) (output_cmd pin))) eqn:E1.
    + destruct (succeeded (subprocess_run (calls (ran (output_cmd pin) s))
                             (level_cmd pin High))) eqn:E2.
      * intros Hrest. apply IH in Hrest as (new & -> & Hnew).
        rewrite !ran_with_calls, !with_calls_app.
        eexists. split; [reflexivity|].
        destruct r as [[]|e].
        -- destruct Hnew as [Hok Hall]. split.
           ++ repeat constructor; [exact E1|exact E2|exact Hok].
           ++ intros p Hp. apply elem_of_cons in Hp as [->|Hp].
              ** split; eexists; [left|right; left].
              ** destruct (Hall p Hp) as [[o1 H1] [o2 H2]].
                 split; eexists; right; right; eassumption.
        -- destruct Hnew as [Hexn (pre & bad & -> & Hbad & Hpre)].
           split; [exact Hexn|].
           eexists (_ :: _ :: pre), bad. split; [reflexivity|].
           split; [exact Hbad|]. repeat constructor; [exact E1|exact E2|exact Hpre].
      * intros [= <- <-]. rewrite !ran_with_calls, !with_calls_app.
        eexists. split; [reflexivity|]. split; [eauto|].
        eexists [_], _. split; [reflexivity|]. split; [exact E2|].
        repeat constructor. exact E1.
    + intros [= <- <-]. rewrite ran_with_calls.
      eexists. split; [reflexivity|]. split; [eauto|].
      eexists [], _. split; [reflexivity|]. split; [exact E1|constructor].
Qed.

(** The loop of [cleanup_and_exit] runs the drive-high command of every pin,
    in order, and goes on whatever comes of each. *)
Lemma sweep_loop_spec pins s :
  exists new,
    for_each pins (sweep_pin subprocess_run) s = (Ok tt, with_calls new s)
    /\ map fst new = map (fun pin => level_cmd pin High) pins.
Proof.
  revert s. induction pins as [|pin pins IH]; intros s.
  - exists []. rewrite with_calls_nil. done.
  - simpl. unfold mbind, M_bind, sweep_pin at 1, mbind, M_bind.
    rewrite set_pin_high_eq. simpl.
    destruct (IH (ran (level_cmd pin High) s)) as (new & -> & Hcmds).
    rewrite ran_with_calls, with_calls_app.
    eexists. split; [reflexivity|]. simpl. by rewrite Hcmds.
Qed.

End Loops.

(** ** The recorded state *)

Lemma covers_registry_lookup s g l pin :
  covers_registry s = true -> line g l = Some pin ->
  exists leds, current_state s !! g = Some leds.
Proof.
  unfold covers_registry, line. intros Hcov Hline.
  destruct (dict_get GPIO_PINS g) as [pins|] eqn:Eg; [|discriminate].
  apply dict_get_elem_of, list_elem_of_In in Eg.
  rewrite forallb_forall in Hcov. apply Hcov in Eg.
  apply bool_decide_eq_true in Eg as [leds Hleds]. eauto.
Qed.

Lemma line_state_with_calls new s g l :
  line_state (with_calls new s) g l = line_state s g l.
Proof. reflexivity. Qed.

Lemma line_state_update g l b leds st s :
  line_state (set_current_state (<[g := <[l := b]> leds]> st) s) g l = Some b.
Proof.
  unfold line_state. simpl. rewrite lookup_insert_eq. simpl.
  apply lookup_insert_eq.
Qed.

Lemma line_state_update_other g l g' l' b leds s :
  current_state s !! g = Some leds ->
  (g', l') <> (g, l) ->
  line_state (set_current_state (<[g := <[l := b]> leds]> (current_state s)) s) g' l'
  = line_state s g' l'.
Proof.
  intros Hst Hne. unfold line_state. simpl.
  destruct (decide (g = g')) as [<-|Hg].
  - rewrite lookup_insert_eq, Hst. simpl.
    apply lookup_insert_ne. congruence.
  - by rewrite lookup_insert_ne.
Qed.

(** ** The claims about single commands *)

(** C10.  [run_pinctrl] always returns a pair and never raises: a subprocess
    that completed gives (return code is zero, stripped output), and a
    subprocess-level error gives [False] with the empty string; so [set_pin_output],
    [set_pin_high] and [set_pin_low] always return a boolean. *)
Theorem run_pinctrl_total
    (run : list call -> pystr -> proc_outcome) (command : pystr) (pin : Z) (s : Sys) :
  (run_pinctrl run command s).1
  = Ok match run (calls s) (py "sudo pinctrl " ++ command) with
       | Completed returncode stdout => (Z.eqb returncode 0, strip stdout)
       | RunError _ => (false, [])
       end
  /\ (exists b, (set_pin_output run pin s).1 = Ok b)
  /\ (exists b, (set_pin_high run pin s).1 = Ok b)
  /\ (exists b, (set_pin_low run pin s).1 = Ok b).
Proof.
  rewrite run_pinctrl_eq, set_pin_output_eq, set_pin_high_eq, set_pin_low_eq.
  cbn [fst]. split; [|repeat split; eexists; reflexivity].
  destruct (run (calls s) (py "sudo pinctrl " ++ command)); reflexivity.
Qed.

(** C2.  On a registered line a command that asks for ON runs exactly one
    subprocess, the drive-low command of the bound pin, and a command that
    asks for OFF runs exactly one, the drive-high command of that pin; a
    drive-low command is never a drive-high command.  The inversion is made
    once, in [handle_pin_command]. *)
Theorem command_drives_inverted_level
    (run : list call -> pystr -> proc_outcome) (unicode_lower : pystr -> pystr)
    (g l v : pystr) (pin : Z) (s : Sys) :
  line g l = Some pin ->
  covers_registry s = true ->
  let s' := (handle_pin_command run unicode_lower g l v s).2 in
  (value_of unicode_lower v = true ->
     exists o, new_calls s s' = [(level_cmd pin Low, o)])
  /\ (value_of unicode_lower v = false ->
     exists o, new_calls s s' = [(level_cmd pin High, o)])
  /\ (forall p p', level_cmd p Low <> level_cmd p' High).
Proof.
  intros Hline Hcov.
  destruct (covers_registry_lookup _ _ _ _ Hcov Hline) as [leds Hleds].
  rewrite (handle_pin_command_eq _ _ _ _ _ _ _ _ Hline Hleds). simpl.
  repeat split.
  - intros ->. eexists. apply new_calls_app. reflexivity.
  - intros ->. eexists. apply new_calls_app. reflexivity.
  - intros p p' H. apply level_cmd_inj in H. discriminate.
Qed.

Lemma command_drives_inverted_level_witness :
  line (py "fpga1") (py "dan") = Some 18%Z
  /\ covers_registry module_state = true
  /\ value_of no_case (py "true") = true
  /\ exists o, new_calls module_state
       (handle_pin_command always_ok no_case (py "fpga1") (py "dan") (py "true")
          module_state).2 = [(level_cmd 18 Low, o)].
Proof.
  split; [reflexivity|]. split; [reflexivity|]. split; [reflexivity|].
  apply (command_drives_inverted_level always_ok no_case
           (py "fpga1") (py "dan") (py "true") 18%Z module_state);
    reflexivity.
Defined.

(** C9.  On a registered line, the same command twice in a row leaves the
    recorded state as the first one left it, and each of the two runs
    exactly one subprocess, the same level command. *)
Theorem repeated_command_idempotent
    (run : list call -> pystr -> proc_outcome) (unicode_lower : pystr -> pystr)
    (g l v : pystr) (pin : Z) (s : Sys) :
  line g l = Some pin ->
  covers_registry s = true ->
  let once := handle_pin_command run unicode_lower g l v s in
  let twice := handle_pin_command run unicode_lower g l v once.2 in
  once.1 = Ok tt /\ twice.1 = Ok tt
  /\ current_state twice.2 = current_state once.2
  /\ line_state twice.2 g l = Some (value_of unicode_lower v)
  /\ (exists o, new_calls s once.2
               = [(level_cmd pin (level_for (value_of unicode_lower v)), o)])
  /\ (exists o, new_calls once.2 twice.2
               = [(level_cmd pin (level_for (value_of unicode_lower v)), o)])
  /\ bus twice.2 = bus s.
Proof.
  intros Hline Hcov.
  destruct (covers_registry_lookup _ _ _ _ Hcov Hline) as [leds Hleds].
  rewrite (handle_pin_command_eq _ _ _ _ _ _ _ _ Hline Hleds). simpl.
  erewrite handle_pin_command_eq; [|exact Hline|simpl; apply lookup_insert_eq].
  simpl. rewrite !insert_insert_eq.
  repeat split.
  - apply line_state_update.
  - eexists. apply new_calls_app. reflexivity.
  - eexists. apply new_calls_app. reflexivity.
Qed.

Lemma repeated_command_idempotent_witness :
  line (py "fpga2") (py "ben") = Some 24%Z
  /\ covers_registry module_state = true
  /\ let once := handle_pin_command always_ok no_case (py "fpga2") (py "ben") (py "TRUE")
                   module_state in
     let twice := handle_pin_command always_ok no_case (py "fpga2") (py "ben") (py "TRUE")
                    once.2 in
     current_state twice.2 = current_state once.2.
Proof.
  split; [reflexivity|]. split; [reflexivity|].
  apply (repeated_command_idempotent always_ok no_case
           (py "fpga2") (py "ben") (py "TRUE") 24%Z module_state);
    reflexivity.
Defined.

(** C1, as the code has it.  On a registered line [handle_pin_command]
    records the wanted value before it runs the level command and does not
    look at what the command reports: when the subprocess does not succeed,
    the call still returns normally, the recorded state of the line is the
    wanted value, and the other lines keep their recorded state. *)
Theorem failed_command_still_recorded
    (run : list call -> pystr -> proc_outcome) (unicode_lower : pystr -> pystr)
    (g l v : pystr) (pin : Z) (s : Sys) :
  line g l = Some pin ->
  covers_registry s = true ->
  succeeded (run (calls s) (level_cmd pin (level_for (value_of unicode_lower v)))) = false ->
  let r := handle_pin_command run unicode_lower g l v s in
  r.1 = Ok tt
  /\ new_calls s r.2
     = [(level_cmd pin (level_for (value_of unicode_lower v)),
         run (calls s) (level_cmd pin (level_for (value_of unicode_lower v))))]
  /\ line_state r.2 g l = Some (value_of unicode_lower v)
  /\ (forall g' l', (g', l') <> (g, l) -> line_state r.2 g' l' = line_state s g' l').
Proof.
  intros Hline Hcov _.
  destruct (covers_registry_lookup _ _ _ _ Hcov Hline) as [leds Hleds].
  rewrite (handle_pin_command_eq _ _ _ _ _ _ _ _ Hline Hleds). cbn [fst snd].
  repeat split.
  - apply new_calls_app. reflexivity.
  - apply line_state_update.
  - intros g' l' Hne. rewrite ran_with_calls, line_state_with_calls.
    by apply line_state_update_other.
Qed.

Lemma failed_command_still_recorded_witness :
  line (py "fpga1") (py "dan") = Some 18%Z
  /\ covers_registry module_state = true
  /\ succeeded (always_refused (calls module_state)
                  (level_cmd 18 (level_for (value_of no_case (py "true"))))) = false
  /\ line_state
       (handle_pin_command always_refused no_case (py "fpga1") (py "dan") (py "true")
          module_state).2 (py "fpga1") (py "dan")
     = Some (value_of no_case (py "true")).
Proof.
  split; [reflexivity|]. split; [reflexivity|]. split; [reflexivity|].
  apply (failed_command_still_recorded always_refused no_case
           (py "fpga1") (py "dan") (py "true") 18%Z module_state);
    reflexivity.
Defined.

(** C1 as it is worded does not hold: with a [pinctrl] that is always
    refused, the command "true" for fpga1/dan returns normally and leaves
    the line recorded as on, while it was recorded as off before. *)
Lemma intent_recorded_despite_failure :
  ~ state_reflects_confirmed_action always_refused no_case
      (py "fpga1") (py "dan") (py "true") module_state.
Proof.
  unfold state_reflects_confirmed_action. intros H.
  destruct H as [_ Hstate].
  - exists (level_cmd 18 Low, Completed 1 []).
    split; [vm_compute; left|reflexivity].
  - vm_compute in Hstate. discriminate Hstate.
Qed.

(** ** The claims about messages *)

Lemma command_topic_shape t g l :
  split 47 t = [py "fpga"; py "command"; g; l] ->
  t = py "fpga/command/" ++ g ++ py "/" ++ l
  /\ spec_status_topic t = py "fpga/status/" ++ g ++ py "/" ++ l.
Proof.
  intros Hsplit. unfold spec_status_topic. rewrite <- (join_split 47 t) at 1.
  rewrite Hsplit. split; reflexivity.
Qed.

(** C5.  A command for a pair that is not in the registry is dropped:
    [on_message] leaves the whole state as it found it, so no subprocess is
    run, no recorded state changes and nothing is published; and
    [handle_pin_command] itself, called for such a pair, stops at the
    registry lookup with [KeyError] before it touches anything. *)
Theorem unregistered_command_dropped
    (run : list call -> pystr -> proc_outcome) (unicode_lower : pystr -> pystr)
    (msg : MQTTMessage) (a b g l v : pystr) (s : Sys) :
  split 47 (topic msg) = [a; b; g; l] ->
  registered g l = false ->
  on_message run unicode_lower msg s = (Ok tt, s)
  /\ exists key, handle_pin_command run unicode_lower g l v s = (Raise (KeyError key), s).
Proof.
  intros Hsplit Hreg. split.
  - exact (on_message_unregistered run unicode_lower msg a b g l s Hsplit Hreg).
  - exact (handle_pin_command_unregistered run unicode_lower g l v s Hreg).
Qed.

Lemma unregistered_command_dropped_witness :
  split 47 (py "fpga/command/fpga9/dan") = [py "fpga"; py "command"; py "fpga9"; py "dan"]
  /\ registered (py "fpga9") (py "dan") = false
  /\ on_message always_ok no_case
       (mkMsg (py "fpga/command/fpga9/dan") (ascii_bytes "true")) module_state
     = (Ok tt, module_state).
Proof.
  split; [reflexivity|]. split; [reflexivity|].
  apply (unregistered_command_dropped always_ok no_case
           (mkMsg (py "fpga/command/fpga9/dan") (ascii_bytes "true"))
           (py "fpga") (py "command") (py "fpga9") (py "dan") (py "true") module_state);
    reflexivity.
Defined.

(** C6, as the code has it.  For a command on a registered line whose
    payload is valid UTF-8, and whatever the level command reports,
    [on_message] publishes exactly one message: on the command topic with
    [command] replaced by [status], carrying the received text with the
    white space around it stripped (so the received text itself when it has
    none). *)
Theorem status_echo_is_stripped_payload
    (run : list call -> pystr -> proc_outcome) (unicode_lower : pystr -> pystr)
    (msg : MQTTMessage) (g l text : pystr) (pin : Z) (s : Sys) :
  split 47 (topic msg) = [py "fpga"; py "command"; g; l] ->
  line g l = Some pin ->
  covers_registry s = true ->
  utf8_decode (payload msg) = Some text ->
  let r := on_message run unicode_lower msg s in
  r.1 = Ok tt
  /\ bus r.2 = bus s ++ [Publish (spec_status_topic (topic msg)) (strip text)]
  /\ spec_status_topic (topic msg) = py "fpga/status/" ++ g ++ py "/" ++ l
  /\ (strip text = text ->
      bus r.2 = bus s ++ [Publish (spec_status_topic (topic msg)) text]).
Proof.
  intros Hsplit Hline Hcov Hdec.
  destruct (covers_registry_lookup _ _ _ _ Hcov Hline) as [leds Hleds].
  rewrite (on_message_eq _ _ _ _ _ _ _ _ _ Hsplit Hline Hleds Hdec). cbn [fst snd].
  destruct (command_topic_shape _ _ _ Hsplit) as [_ ->].
  repeat split. intros ->. reflexivity.
Qed.

Lemma status_echo_is_stripped_payload_witness :
  split 47 (py "fpga/command/fpga1/dan") = [py "fpga"; py "command"; py "fpga1"; py "dan"]
  /\ line (py "fpga1") (py "dan") = Some 18%Z
  /\ covers_registry module_state = true
  /\ utf8_decode (ascii_bytes "True") = Some (py "True")
  /\ bus (on_message always_refused no_case
            (mkMsg (py "fpga/command/fpga1/dan") (ascii_bytes "True")) module_state).2
     = bus module_state
       ++ [Publish (spec_status_topic (py "fpga/command/fpga1/dan")) (strip (py "True"))].
Proof.
  split; [reflexivity|]. split; [reflexivity|]. split; [reflexivity|].
  split; [reflexivity|].
  apply (status_echo_is_stripped_payload always_refused no_case
           (mkMsg (py "fpga/command/fpga1/dan") (ascii_bytes "True"))
           (py "fpga1") (py "dan") (py "True") 18%Z module_state);
    reflexivity.
Defined.

(** C6 as it is worded does not hold: the payload " true" (with a leading
    space) on fpga/command/fpga1/dan is published as "true". *)
Lemma padded_payload_not_echoed_verbatim :
  ~ echoes_payload_verbatim always_ok no_case
      (mkMsg (py "fpga/command/fpga1/dan") (ascii_bytes " true")) module_state.
Proof.
  intros (text & Hdec & Hbus).
  vm_compute in Hdec. injection Hdec as <-.
  vm_compute in Hbus. discriminate Hbus.
Qed.

(** C7, as the code has it.  The boolean a payload stands for is defined
    for every payload that is valid UTF-8: it is ON exactly when the text,
    stripped of surrounding white space and lowered, is "true", and OFF for
    every other text ("1" and "yes" included); that boolean is what a
    command on a registered line records and what decides the level
    command.  A payload that is not valid UTF-8 does not resolve to OFF:
    [decode] raises, [on_message] swallows the exception, and the message
    changes nothing. *)
Theorem payload_parse_on_text
    (run : list call -> pystr -> proc_outcome) (unicode_lower : pystr -> pystr)
    (msg : MQTTMessage) (g l : pystr) (pin : Z) (s : Sys) :
  split 47 (topic msg) = [py "fpga"; py "command"; g; l] ->
  line g l = Some pin ->
  covers_registry s = true ->
  let r := on_message run unicode_lower msg s in
  r.1 = Ok tt
  /\ match utf8_decode (payload msg) with
     | Some text =>
         let on := value_of unicode_lower (strip text) in
         (on = true <-> lower unicode_lower (strip text) = py "true")
         /\ (on = false <-> lower unicode_lower (strip text) <> py "true")
         /\ line_state r.2 g l = Some on
         /\ (exists o, new_calls s r.2 = [(level_cmd pin (if on then Low else High), o)])
     | None => r.2 = s
     end
  /\ value_of unicode_lower (strip (py "1")) = false
  /\ value_of unicode_lower (strip (py "yes")) = false
  /\ value_of unicode_lower (strip ([32] ++ py "TrUe" ++ [13; 10])) = true.
Proof.
  intros Hsplit Hline Hcov.
  destruct (covers_registry_lookup _ _ _ _ Hcov Hline) as [leds Hleds].
  destruct (utf8_decode (payload msg)) as [text|] eqn:Hdec.
  - rewrite (on_message_eq _ _ _ _ _ _ _ _ _ Hsplit Hline Hleds Hdec). cbn [fst snd].
    split; [reflexivity|]. split; [|repeat split].
    split; [apply str_eqb_eq|].
    split.
    { unfold value_of. rewrite <- str_eqb_eq. destruct (str_eqb _ _); split; congruence. }
    split; [apply line_state_update|].
    eexists. apply new_calls_app. reflexivity.
  - rewrite (on_message_undecodable _ _ _ _ Hdec). cbn [fst snd]. repeat split.
Qed.

Lemma payload_parse_on_text_witness :
  split 47 (py "fpga/command/fpga3/loaded")
  = [py "fpga"; py "command"; py "fpga3"; py "loaded"]
  /\ line (py "fpga3") (py "loaded") = Some 6%Z
  /\ covers_registry module_state = true
  /\ (on_message always_ok no_case
        (mkMsg (py "fpga/command/fpga3/loaded") (ascii_bytes "yes")) module_state).1
     = Ok tt.
Proof.
  split; [reflexivity|]. split; [reflexivity|]. split; [reflexivity|].
  exact (proj1 (payload_parse_on_text always_ok no_case
           (mkMsg (py "fpga/command/fpga3/loaded") (ascii_bytes "yes"))
           (py "fpga3") (py "loaded") 6%Z module_state eq_refl eq_refl eq_refl)).
Defined.

(** C7 as it is worded does not hold: with fpga1/dan recorded on after the
    command "true", a command for that line whose payload is the single
    byte 0xFF, which is no UTF-8, does not resolve to OFF: the line stays
    recorded on, no subprocess is run and nothing is published. *)
Lemma undecodable_payload_not_off :
  ~ payload_always_resolves always_ok no_case
      (mkMsg (py "fpga/command/fpga1/dan") [xff]) (py "fpga1") (py "dan")
      (on_message always_ok no_case
         (mkMsg (py "fpga/command/fpga1/dan") (ascii_bytes "true")) module_state).2.
Proof.
  unfold payload_always_resolves. intros H.
  vm_compute in H. discriminate H.
Qed.

(** ** Start-up and shutdown *)

Lemma initial_line_state g l pin :
  line g l = Some pin -> line_state module_state g l = Some false.
Proof.
  unfold line. destruct (dict_get GPIO_PINS g) as [pins|] eqn:Eg; [|discriminate].
  intros El. apply dict_get_elem_of in Eg, El.
  unfold GPIO_PINS in Eg.
  repeat (apply elem_of_cons in Eg as [Eg|Eg]); try (by inversion Eg);
    injection Eg as -> ->;
    repeat (apply elem_of_cons in El as [El|El]); try (by inversion El);
    injection El as -> ->; reflexivity.
Qed.

Section Lifecycle.

Variable subprocess_run : list call -> pystr -> proc_outcome.
Variable broker_up : bool.

Lemma init_eq :
  init subprocess_run module_state
  = match setup_gpio subprocess_run module_state with
    | (Ok _, s) => (Ok tt, set_handlers true s)
    | (Raise e, s) => (Raise e, s)
    end.
Proof.
  unfold init, mbind, M_bind, modify.
  change (set_running false (set_mqtt_client false module_state)) with module_state.
  destruct (setup_gpio subprocess_run module_state) as [[[]|e] s]; reflexivity.
Qed.

(** What [__init__] leaves behind at program start. *)
Lemma init_spec r s :
  init subprocess_run module_state = (r, s) ->
  exists new,
    match r with
    | Ok _ =>
        s = set_handlers true (with_calls new module_state)
        /\ Forall (fun c => succeeded c.2 = true) new
        /\ forall pin, pin ∈ registry_pins ->
             (exists o, (output_cmd pin, o) ∈ new)
             /\ (exists o, (level_cmd pin High, o) ∈ new)
    | Raise e =>
        s = with_calls new module_state
        /\ (exists msg, e = Exception msg)
        /\ exists pre bad, new = pre ++ [bad] /\ succeeded bad.2 = false
             /\ Forall (fun c => succeeded c.2 = true) pre
    end.
Proof.
  rewrite init_eq, setup_gpio_eq.
  destruct (for_each registry_pins (setup_pin subprocess_run) module_state)
    as [r1 s1] eqn:E.
  apply setup_loop_spec in E as (new & -> & Hnew).
  destruct r1 as [[]|e]; intros [= <- <-]; exists new; [|done].
  destruct Hnew. done.
Qed.

(** An exception out of [__init__] is caught by nobody. *)
Lemma program_init_raises msg s :
  init subprocess_run module_state = (Raise (Exception msg), s) ->
  program subprocess_run broker_up = (Crashed (Exception msg), s).
Proof.
  intros H. unfold program, main, mbind, M_bind. rewrite H. reflexivity.
Qed.

End Lifecycle.

(** C8.  At program start, when [__init__] returns normally every
    registered line is recorded as off, and the pin of every registered line
    was configured as output and driven high by subprocesses that succeeded.
    When a subprocess of [__init__] does not succeed, [__init__] raises, the
    process ends on the uncaught exception and never connects to the broker,
    so it serves no command. *)
Theorem initialize_forces_all_off
    (run : list call -> pystr -> proc_outcome) (broker_up : bool) :
  (forall s, init run module_state = (Ok tt, s) ->
     forall g l pin, line g l = Some pin ->
       line_state s g l = Some false
       /\ (exists o, (output_cmd pin, o) ∈ calls s /\ succeeded o = true)
       /\ (exists o, (level_cmd pin High, o) ∈ calls s /\ succeeded o = true))
  /\ ((exists c, c ∈ calls (init run module_state).2 /\ succeeded c.2 = false) ->
      exists e, (init run module_state).1 = Raise e
        /\ (program run broker_up).1 = Crashed e
        /\ (program run broker_up).1 <> Serving
        /\ bus (program run broker_up).2 = []).
Proof.
  split.
  - intros s Hinit g l pin Hline.
    apply init_spec in Hinit as (new & -> & Hok & Hall).
    rewrite Forall_forall in Hok.
    destruct (Hall pin (line_in_registry _ _ _ Hline)) as [[o1 H1] [o2 H2]].
    split; [exact (initial_line_state _ _ _ Hline)|].
    split; [exists o1|exists o2]; (split; [assumption|]).
    + exact (Hok _ H1).
    + exact (Hok _ H2).
  - intros (c & Hc & Hbad).
    destruct (init run module_state) as [r s] eqn:Hinit.
    destruct (init_spec _ _ _ Hinit) as (new & Hspec).
    destruct r as [[]|e].
    + destruct Hspec as (-> & Hok & _). rewrite Forall_forall in Hok.
      cbn [snd] in Hc. rewrite (Hok c Hc) in Hbad. discriminate.
    + destruct Hspec as (-> & [msg ->] & _).
      rewrite (program_init_raises run broker_up msg _ Hinit).
      exists (Exception msg). done.
Qed.

Lemma initialize_forces_all_off_witness :
  init always_ok module_state = (Ok tt, (init always_ok module_state).2)
  /\ line (py "fpga3") (py "ben") = Some 13%Z
  /\ line_state (init always_ok module_state).2 (py "fpga3") (py "ben") = Some false
  /\ (exists c, c ∈ calls (init always_refused module_state).2 /\ succeeded c.2 = false)
  /\ (program always_refused true).1 <> Serving.
Proof.
  split; [reflexivity|]. split; [reflexivity|].
  split.
  - apply (proj1 (initialize_forces_all_off always_ok true)
             (init always_ok module_state).2 eq_refl
             (py "fpga3") (py "ben") 13%Z eq_refl).
  - assert (Hbad : exists c, c ∈ calls (init always_refused module_state).2
                             /\ succeeded c.2 = false).
    { exists (output_cmd 18, Completed 1 []). split; [vm_compute; left|reflexivity]. }
    split; [exact Hbad|].
    destruct (proj2 (initialize_forces_all_off always_refused true) Hbad)
      as (e & _ & _ & Hne & _).
    exact Hne.
Defined.

(** C3, as the code has it.  When [setup_gpio] raises at program start, the
    exception leaves [__init__] and the program uncaught: the process ends
    with exit status 1, the subprocess that did not succeed is the last one
    that was run (no sweep follows it), no MQTT client exists (nothing is
    disconnected), and the signal handlers were never installed. *)
Theorem fatal_startup_crashes
    (run : list call -> pystr -> proc_outcome) (broker_up : bool) (e : exn) (s : Sys) :
  init run module_state = (Raise e, s) ->
  program run broker_up = (Crashed e, s)
  /\ exit_status (program run broker_up).1 = Some 1%Z
  /\ (exists msg, e = Exception msg)
  /\ (exists pre bad, calls s = pre ++ [bad] /\ succeeded bad.2 = false
        /\ Forall (fun c => succeeded c.2 = true) pre)
  /\ bus s = [] /\ mqtt_client s = false /\ handlers s = false
  /\ current_state s = initial_current_state.
Proof.
  intros Hinit.
  destruct (init_spec _ _ _ Hinit) as (new & -> & [msg ->] & pre & bad & -> & Hbad & Hpre).
  rewrite (program_init_raises run broker_up msg _ Hinit).
  split; [reflexivity|]. split; [reflexivity|]. split; [eauto|].
  split; [|done]. exists pre, bad. done.
Qed.

Lemma fatal_startup_crashes_witness :
  init always_refused module_state
  = (Raise (Exception (py "Failed to set GPIO 18 as output")),
     with_calls [(output_cmd 18, Completed 1 [])] module_state)
  /\ program always_refused true
     = (Crashed (Exception (py "Failed to set GPIO 18 as output")),
        with_calls [(output_cmd 18, Completed 1 [])] module_state).
Proof.
  split; [reflexivity|].
  apply (fatal_startup_crashes always_refused true
           (Exception (py "Failed to set GPIO 18 as output"))
           (with_calls [(output_cmd 18, Completed 1 [])] module_state)).
  reflexivity.
Defined.

(** C3 as it is worded does not hold: with a [pinctrl] that is always
    refused, start-up fails at the first pin and the process ends after that
    one subprocess, with no drive-high command for any line and no
    disconnect. *)
Lemma fatal_startup_runs_no_sweep :
  ~ fatal_startup_cleans_up always_refused true.
Proof.
  unfold fatal_startup_cleans_up. intros H.
  destruct H as (Hsweep & _ & _).
  - eexists. reflexivity.
  - destruct (Hsweep 18%Z) as [o Ho]; [left|].
    vm_compute in Ho.
    apply elem_of_cons in Ho as [Ho|Ho]; [discriminate Ho|inversion Ho].
Qed.

(** C4, as the code has it.  [cleanup_and_exit] runs the drive-high command
    of every pin of the registry, in registry order and whatever each one
    reports, so every registered line is attempted; it leaves
    [current_state] as it was, for the lines whose command succeeded as for
    the others; it disconnects the MQTT client when there is one; and it
    always ends with [sys.exit(0)], whether or not a command failed. *)
Theorem cleanup_sweeps_every_line
    (run : list call -> pystr -> proc_outcome) (s : Sys) :
  exists new s',
    cleanup_and_exit run s = (Raise (SystemExit 0), s')
    /\ calls s' = calls s ++ new
    /\ map fst new = map (fun pin => level_cmd pin High) registry_pins
    /\ (forall g l pin, line g l = Some pin -> exists o, (level_cmd pin High, o) ∈ new)
    /\ current_state s' = current_state s
    /\ bus s' = bus s ++ (if mqtt_client s then [Disconnect] else []).
Proof.
  destruct (sweep_loop_spec run registry_pins s) as (new & Hloop & Hcmds).
  exists new. unfold cleanup_and_exit, mbind at 1, M_bind at 1.
  rewrite cleanup_sweep_eq, Hloop.
  unfold mbind, M_bind, gets, raise, modify. cbn [mqtt_client with_calls set_calls].
  assert (Hall : forall g l pin, line g l = Some pin ->
                   exists o, (level_cmd pin High, o) ∈ new).
  { intros g l pin Hline. apply line_in_registry in Hline.
    assert (Hin : level_cmd pin High ∈ map fst new).
    { rewrite Hcmds. apply list_elem_of_fmap. eauto. }
    apply list_elem_of_fmap in Hin as ([cmd o] & Heq & Hin). simpl in Heq.
    subst cmd. eauto. }
  destruct (mqtt_client s); eexists; (split; [reflexivity|]); cbn;
    rewrite ?app_nil_r; done.
Qed.

(** C4 as it is worded does not hold: after the command "true" for
    fpga1/dan, the sweep drives pin 18 high with success and the line is
    still recorded as on. *)
Lemma sweep_leaves_recorded_state :
  ~ sweep_records_off always_ok
      (handle_pin_command always_ok no_case (py "fpga1") (py "dan") (py "true")
         module_state).2.
Proof.
  unfold sweep_records_off. intros H.
  specialize (H (py "fpga1") (py "dan") 18%Z (Completed 0 []) eq_refl).
  assert (Hoff : line_state
            (cleanup_and_exit always_ok
               (handle_pin_command always_ok no_case (py "fpga1") (py "dan") (py "true")
                  module_state).2).2 (py "fpga1") (py "dan") = Some false).
  { apply H; [vm_compute; left|reflexivity]. }
  vm_compute in Hoff. discriminate Hoff.
Qed.

(** ** States the program can be in *)

(** The hypothesis [covers_registry] of the statements above holds when the
    module is loaded and is kept by every message. *)
Lemma covers_registry_module_state : covers_registry module_state = true.
Proof. reflexivity. Qed.

Lemma covers_registry_insert g leds s :
  covers_registry s = true ->
  covers_registry (set_current_state (<[g := leds]> (current_state s)) s) = true.
Proof.
  unfold covers_registry. rewrite !forallb_forall.
  intros Hcov [k pins] Hin. specialize (Hcov _ Hin).
  apply bool_decide_eq_true in Hcov. apply bool_decide_eq_true.
  cbn [current_state set_current_state].
  destruct (decide (g = k)) as [->|Hne].
  - rewrite lookup_insert_eq. eauto.
  - by rewrite lookup_insert_ne.
Qed.

Lemma covers_registry_on_message run unicode_lower msg s :
  covers_registry s = true ->
  covers_registry (on_message run unicode_lower msg s).2 = true.
Proof.
  intros Hcov. unfold on_message, try_except, mbind at 1, M_bind at 1.
  destruct (utf8_decode (payload msg)) as [text|]; [|exact Hcov].
  unfold mret at 1, M_ret at 1.
  destruct (_ && _ && _); [|exact Hcov].
  destruct (registered _ _) eqn:Hreg; [|exact Hcov].
  destruct (registered_line _ _ Hreg) as [pin Hline].
  destruct (covers_registry_lookup _ _ _ _ Hcov Hline) as [leds Hleds].
  unfold mbind, M_bind.
  rewrite (handle_pin_command_eq _ _ _ _ _ _ _ _ Hline Hleds).
  exact (covers_registry_insert _ _ _ Hcov).
Qed.

(** ** The registry and a run of the program *)

(** No two lines of the registry share a pin, and no two pins share a
    command. *)
Lemma registry_pins_distinct :
  NoDup registry_pins
  /\ NoDup (map (fun pin => level_cmd pin High) registry_pins)
  /\ NoDup (map (fun pin => level_cmd pin Low) registry_pins).
Proof. repeat split; apply (bool_decide_unpack _); vm_compute; exact I. Qed.

(** fpga/command/fpga1/dan with payload "True", then with payload "false",
    on a [pinctrl] that works: pin 18 is driven low, then high; the line is
    recorded on, then off; both payloads are echoed on
    fpga/status/fpga1/dan. *)
Example scenario_dan :
  let s1 := (on_message always_ok no_case
               (mkMsg (py "fpga/command/fpga1/dan") (ascii_bytes "True"))
               module_state).2 in
  let s2 := (on_message always_ok no_case
               (mkMsg (py "fpga/command/fpga1/dan") (ascii_bytes "false")) s1).2 in
  map fst (calls s1) = [level_cmd 18 Low]
  /\ line_state s1 (py "fpga1") (py "dan") = Some true
  /\ bus s1 = [Publish (py "fpga/status/fpga1/dan") (py "True")]
  /\ map fst (calls s2) = [level_cmd 18 Low; level_cmd 18 High]
  /\ line_state s2 (py "fpga1") (py "dan") = Some false
  /\ bus s2 = [Publish (py "fpga/status/fpga1/dan") (py "True");
               Publish (py "fpga/status/fpga1/dan") (py "false")].
Proof. vm_compute. repeat split. Qed.

(** A start-up on a [pinctrl] that works and a broker that is up: two
    subprocesses per pin in [setup_gpio], two more per pin in
    [test_all_leds], then the MQTT loop. *)
Example startup_serves :
  (program always_ok true).1 = Serving
  /\ length (calls (program always_ok true).2) = 48%nat
  /\ bus (program always_ok true).2 = [Connect; LoopStart]
  /\ handlers (program always_ok true).2 = true.
Proof. vm_compute. repeat split. Qed.

(** A broker that is down ends the program on the exception of [connect]. *)
Example startup_without_broker :
  (program always_ok false).1 = Crashed ConnectionRefusedError.
Proof. reflexivity. Qed.

(** A payload that is not UTF-8 on a registered topic changes nothing. *)
Example undecodable_payload_dropped :
  on_message always_ok no_case (mkMsg (py "fpga/command/fpga1/dan") [xff]) module_state
  = (Ok tt, module_state).
Proof. reflexivity. Qed.

(** * More of the controller *)

(** ** Every case of [on_message] *)

Lemma handle_pin_command_no_state run unicode_lower g l v pin s :
  line g l = Some pin ->
  current_state s !! g = None ->
  handle_pin_command run unicode_lower g l v s = (Raise (KeyError g), s).
Proof.
  unfold line. intros Hline Hst.
  destruct (dict_get GPIO_PINS g) as [pins|] eqn:Eg; [|discriminate].
  simpl in Hline.
  unfold handle_pin_command, getitem, mbind, M_bind, gets, modify.
  rewrite Eg. unfold mret, M_ret. rewrite Hline, Hst. reflexivity.
Qed.

(** A message either changes nothing, or it is a command for a registered
    line with a decodable payload and has the three effects of
    [on_message_eq]. *)
Lemma on_message_cases run unicode_lower msg s :
  on_message run unicode_lower msg s = (Ok tt, s)
  \/ exists g l pin leds text,
      split 47 (topic msg) = [py "fpga"; py "command"; g; l]
      /\ line g l = Some pin
      /\ current_state s !! g = Some leds
      /\ utf8_decode (payload msg) = Some text
      /\ on_message run unicode_lower msg s
         = (Ok tt,
            emit (Publish (py "fpga/status/" ++ g ++ py "/" ++ l) (strip text))
              (ran run (level_cmd pin (level_for (value_of unicode_lower (strip text))))
                 (set_current_state
                    (<[g := <[l := value_of unicode_lower (strip text)]> leds]>
                       (current_state s)) s))).
Proof.
  destruct (utf8_decode (payload msg)) as [text|] eqn:Hdec;
    [|left; exact (on_message_undecodable run unicode_lower msg s Hdec)].
  destruct (split 47 (topic msg)) as [|p0 [|p1 [|g [|l [|p4 ps]]]]] eqn:Hsplit;
    try (left; unfold on_message, try_except, mbind, M_bind;
         rewrite Hdec, Hsplit; reflexivity).
  destruct (registered g l) eqn:Hreg;
    [|left; exact (on_message_unregistered run unicode_lower msg _ _ _ _ s Hsplit Hreg)].
  destruct (str_eqb p0 (py "fpga")) eqn:E0;
    [|left; unfold on_message, try_except, mbind, M_bind;
      rewrite Hdec, Hsplit; cbn [nth length Nat.eqb andb]; rewrite E0; reflexivity].
  destruct (str_eqb p1 (py "command")) eqn:E1;
    [|left; unfold on_message, try_except, mbind, M_bind;
      rewrite Hdec, Hsplit; cbn [nth length Nat.eqb andb]; rewrite E0, E1; reflexivity].
  apply str_eqb_eq in E0 as ->. apply str_eqb_eq in E1 as ->.
  destruct (registered_line _ _ Hreg) as [pin Hline].
  destruct (current_state s !! g) as [leds|] eqn:Hst.
  - right. exists g, l, pin, leds, text. repeat (split; [assumption || reflexivity|]).
    exact (on_message_eq run unicode_lower msg g l pin leds text s Hsplit Hline Hst Hdec).
  - left. unfold on_message, try_except, mbind at 1, M_bind at 1.
    rewrite Hdec, Hsplit. unfold mret at 1, M_ret at 1.
    cbn [nth length Nat.eqb andb]. rewrite !(proj2 (str_eqb_eq _ _) eq_refl), Hreg.
    cbn [andb]. unfold mbind, M_bind.
    rewrite (handle_pin_command_no_state _ _ _ _ _ _ _ Hline Hst). reflexivity.
Qed.

(** ** The lines of the registry *)

Lemma registered_in_lines g l : registered g l = true -> (g, l) ∈ registry_lines.
Proof.
  unfold registered, dict_mem, registry_lines.
  destruct (dict_get GPIO_PINS g) as [pins|] eqn:Eg; [|discriminate].
  destruct (dict_get pins l) as [pin|] eqn:El; [intros _|discriminate].
  apply dict_get_elem_of in Eg, El.
  apply list_elem_of_In, in_flat_map. exists (g, pins). split.
  - apply list_elem_of_In, Eg.
  - apply in_map_iff. exists (l, pin). split; [reflexivity|].
    apply list_elem_of_In, El.
Qed.

(** A property of every line of the registry holds of every registered
    pair. *)
Lemma registered_ind (P : pystr -> pystr -> Prop) :
  Forall (fun gl => P gl.1 gl.2) registry_lines ->
  forall g l, registered g l = true -> P g l.
Proof.
  intros HP g l Hreg. rewrite Forall_forall in HP.
  exact (HP (g, l) (registered_in_lines g l Hreg)).
Qed.

Lemma registry_lines_registered :
  Forall (fun gl => registered gl.1 gl.2 = true) registry_lines.
Proof. repeat constructor. Qed.

(** The keys of the registry contain no slash: the command topic of a
    registered line splits into its four segments. *)
Lemma command_topic_split g l :
  registered g l = true ->
  split 47 (command_topic g l) = [py "fpga"; py "command"; g; l].
Proof.
  revert g l. apply registered_ind. repeat constructor.
Qed.

Lemma split_command_topic t g l :
  split 47 t = [py "fpga"; py "command"; g; l] -> t = command_topic g l.
Proof. intros H. exact (proj1 (command_topic_shape t g l H)). Qed.

(** ** Commands name their pin *)

Lemma py_inj a b : py a = py b -> a = b.
Proof.
  unfold py. intros H.
  rewrite <- (string_of_list_ascii_of_string a), <- (string_of_list_ascii_of_string b).
  f_equal. revert H. generalize (list_ascii_of_string b).
  induction (list_ascii_of_string a) as [|x xs IH]; intros [|y ys]; simpl;
    try discriminate; [reflexivity|].
  intros [= Hxy Hrest]. f_equal; [|exact (IH _ Hrest)].
  rewrite <- (ascii_N_embedding x), <- (ascii_N_embedding y). by rewrite Hxy.
Qed.

Lemma to_int_proper n :
  Z.to_int n <> Decimal.Pos Decimal.Nil /\ Z.to_int n <> Decimal.Neg Decimal.Nil.
Proof.
  destruct n as [|p|p]; simpl; split; try discriminate;
    intros [= H]; exact (DecimalPos.Unsigned.to_uint_nonnil p H).
Qed.

(** Two integers are formatted alike only when they are equal. *)
Lemma format_int_inj n m : format_int n = format_int m -> n = m.
Proof.
  unfold format_int. intros H. apply py_inj in H.
  apply DecimalZ.to_int_inj.
  destruct (to_int_proper n) as [Hn1 Hn2], (to_int_proper m) as [Hm1 Hm2].
  pose proof (NilZero.isi _ Hn1 Hn2) as En.
  pose proof (NilZero.isi _ Hm1 Hm2) as Em.
  rewrite H in En. rewrite En in Em. by injection Em.
Qed.

(** A level command names one pin and one level. *)
Lemma level_cmd_inj_pin pin pin' lv lv' :
  level_cmd pin lv = level_cmd pin' lv' -> pin = pin' /\ lv = lv'.
Proof.
  intros H. split; [|exact (level_cmd_inj _ _ _ _ H)].
  unfold level_cmd in H. apply app_inv_head in H.
  apply app_inj_2 in H as [H _]; [exact (format_int_inj _ _ H)|].
  by destruct lv, lv'.
Qed.

(** The command that configures a pin is no level command. *)
Lemma output_cmd_not_level pin pin' lv : output_cmd pin <> level_cmd pin' lv.
Proof.
  unfold output_cmd, level_cmd. intros H. apply app_inv_head in H.
  apply app_inj_2 in H as [_ H]; [|by destruct lv].
  destruct lv; discriminate H.
Qed.

Lemma last_level_snoc cs c pin :
  last_level (cs ++ [c]) pin
  = if str_eqb c.1 (level_cmd pin High) then Some High
    else if str_eqb c.1 (level_cmd pin Low) then Some Low
    else last_level cs pin.
Proof.
  induction cs as [|c0 cs IH]; simpl.
  - destruct (str_eqb c.1 (level_cmd pin High)); [reflexivity|].
    destruct (str_eqb c.1 (level_cmd pin Low)); reflexivity.
  - rewrite IH.
    destruct (str_eqb c.1 (level_cmd pin High)); [reflexivity|].
    destruct (str_eqb c.1 (level_cmd pin Low)); reflexivity.
Qed.

Lemma str_eqb_neq a b : a <> b -> str_eqb a b = false.
Proof. unfold str_eqb. apply bool_decide_eq_false_2. Qed.

(** After a level command for a pin, the last level of that pin is the
    level of the command, and the last level of every other pin is what it
    was. *)
Lemma last_level_level_cmd cs pin lv o pin' :
  last_level (cs ++ [(level_cmd pin lv, o)]) pin'
  = if decide (pin = pin') then Some lv else last_level cs pin'.
Proof.
  rewrite last_level_snoc. cbn [fst].
  destruct (decide (pin = pin')) as [<-|Hne].
  - destruct lv.
    + by rewrite (proj2 (str_eqb_eq _ _) eq_refl).
    + rewrite str_eqb_neq; [|intros H; apply level_cmd_inj in H; discriminate].
      by rewrite (proj2 (str_eqb_eq _ _) eq_refl).
  - rewrite !str_eqb_neq; [reflexivity| |];
      intros H; apply level_cmd_inj_pin in H as [H _]; contradiction.
Qed.

Lemma last_level_output_cmd cs pin o pin' :
  last_level (cs ++ [(output_cmd pin, o)]) pin' = last_level cs pin'.
Proof.
  rewrite last_level_snoc. cbn [fst].
  rewrite !str_eqb_neq; [reflexivity| |]; apply output_cmd_not_level.
Qed.

(** ** One message *)

Lemma new_bus_app before after es :
  bus after = bus before ++ es -> new_bus before after = es.
Proof. unfold new_bus. intros ->. apply drop_app_length. Qed.

Lemma new_calls_same s : new_calls s s = [].
Proof. unfold new_calls. apply drop_all. Qed.

Lemma new_bus_same s : new_bus s s = [].
Proof. unfold new_bus. apply drop_all. Qed.

(** X1.  [on_message] returns normally for every message and from every
    state, also one whose [current_state] lacks the entry of the FPGA (the
    [KeyError] is caught), and it never touches the client object, the
    running flag or the signal handlers. *)
Theorem on_message_never_raises
    (run : list call -> pystr -> proc_outcome) (unicode_lower : pystr -> pystr)
    (msg : MQTTMessage) (s : Sys) :
  let r := on_message run unicode_lower msg s in
  r.1 = Ok tt
  /\ mqtt_client r.2 = mqtt_client s
  /\ running r.2 = running s
  /\ handlers r.2 = handlers s.
Proof.
  destruct (on_message_cases run unicode_lower msg s)
    as [->|(g & l & pin & leds & text & _ & _ & _ & _ & ->)]; done.
Qed.

(** A message whose topic is not the command topic of a line leaves the
    recorded state of that line alone. *)
Lemma on_message_frame run unicode_lower msg s g' l' :
  topic msg <> command_topic g' l' ->
  line_state (on_message run unicode_lower msg s).2 g' l' = line_state s g' l'.
Proof.
  intros Hne.
  destruct (on_message_cases run unicode_lower msg s)
    as [->|(g & l & pin & leds & text & Hsplit & _ & Hst & _ & ->)]; [done|].
  cbn [snd]. apply split_command_topic in Hsplit.
  change (line_state (set_current_state
            (<[g := <[l := value_of unicode_lower (strip text)]> leds]> (current_state s)) s)
            g' l' = line_state s g' l').
  apply line_state_update_other; [exact Hst|].
  intros [= -> ->]. contradiction.
Qed.

(** X2.  A message leaves the recorded state of every line alone except the
    one line whose command topic is the topic of the message. *)
Theorem on_message_touches_one_line
    (run : list call -> pystr -> proc_outcome) (unicode_lower : pystr -> pystr)
    (msg : MQTTMessage) (s : Sys) (g' l' : pystr) :
  topic msg <> command_topic g' l' ->
  line_state (on_message run unicode_lower msg s).2 g' l' = line_state s g' l'.
Proof. apply on_message_frame. Qed.

Lemma on_message_touches_one_line_witness :
  topic (mkMsg (py "fpga/command/fpga1/dan") (ascii_bytes "true"))
  <> command_topic (py "fpga2") (py "dan")
  /\ line_state
       (on_message always_ok no_case
          (mkMsg (py "fpga/command/fpga1/dan") (ascii_bytes "true")) module_state).2
       (py "fpga2") (py "dan")
     = line_state module_state (py "fpga2") (py "dan").
Proof.
  assert (Hne : topic (mkMsg (py "fpga/command/fpga1/dan") (ascii_bytes "true"))
                <> command_topic (py "fpga2") (py "dan")) by (vm_compute; discriminate).
  split; [exact Hne|].
  exact (on_message_touches_one_line always_ok no_case
           (mkMsg (py "fpga/command/fpga1/dan") (ascii_bytes "true")) module_state
           (py "fpga2") (py "dan") Hne).
Defined.

(** The effect of one message on the recorded state of a registered line. *)
Lemma on_message_line_state run unicode_lower msg s g l pin :
  line g l = Some pin ->
  covers_registry s = true ->
  line_state (on_message run unicode_lower msg s).2 g l
  = match command_value unicode_lower g l msg with
    | Some v => Some v
    | None => line_state s g l
    end.
Proof.
  intros Hline Hcov. unfold command_value.
  destruct (str_eqb (topic msg) (command_topic g l)) eqn:Etopic.
  - apply str_eqb_eq in Etopic.
    pose proof (command_topic_split g l (line_registered _ _ _ Hline)) as Hsplit.
    rewrite <- Etopic in Hsplit.
    destruct (covers_registry_lookup _ _ _ _ Hcov Hline) as [leds Hleds].
    destruct (utf8_decode (payload msg)) as [text|] eqn:Hdec.
    + rewrite (on_message_eq _ _ _ _ _ _ _ _ _ Hsplit Hline Hleds Hdec).
      apply line_state_update.
    + by rewrite (on_message_undecodable _ _ _ _ Hdec).
  - apply on_message_frame. intros H.
    rewrite H, (proj2 (str_eqb_eq _ _) eq_refl) in Etopic. discriminate.
Qed.

(** ** White space *)

Lemma lstrip_head s : lstrip s = [] \/ exists x r, lstrip s = x :: r /\ is_space x = false.
Proof.
  induction s as [|c s IH]; simpl; [by left|].
  destruct (is_space c) eqn:E; [exact IH|]. right. eauto.
Qed.

Lemma lstrip_nonspace x r : is_space x = false -> lstrip (x :: r) = x :: r.
Proof. simpl. by intros ->. Qed.

Lemma lstrip_idempotent s : lstrip (lstrip s) = lstrip s.
Proof.
  destruct (lstrip_head s) as [->|(x & r & -> & Hx)]; [reflexivity|].
  by apply lstrip_nonspace.
Qed.

Lemma lstrip_snoc_nonspace l x :
  is_space x = false -> lstrip (l ++ [x]) = lstrip l ++ [x].
Proof.
  intros Hx. induction l as [|c l IH]; simpl; [by rewrite Hx|].
  destruct (is_space c); [exact IH|reflexivity].
Qed.

Lemma rstrip_cons_nonspace x r :
  is_space x = false -> rstrip (x :: r) = x :: rstrip r.
Proof.
  intros Hx. unfold rstrip. simpl.
  rewrite (lstrip_snoc_nonspace _ _ Hx), rev_app_distr. reflexivity.
Qed.

Lemma rstrip_idempotent s : rstrip (rstrip s) = rstrip s.
Proof. unfold rstrip. by rewrite rev_involutive, lstrip_idempotent. Qed.

(** Stripping twice is stripping once. *)
Lemma strip_idempotent s : strip (strip s) = strip s.
Proof.
  unfold strip.
  destruct (lstrip_head s) as [->|(x & r & -> & Hx)]; [reflexivity|].
  rewrite (rstrip_cons_nonspace _ _ Hx), (lstrip_nonspace _ _ Hx).
  rewrite <- (rstrip_cons_nonspace _ _ Hx). apply rstrip_idempotent.
Qed.

(** ** Sequences of messages *)

Lemma on_message_ok run unicode_lower msg s :
  on_message run unicode_lower msg s
  = (Ok tt, (on_message run unicode_lower msg s).2).
Proof.
  destruct (on_message_cases run unicode_lower msg s)
    as [->|(g & l & pin & leds & text & _ & _ & _ & _ & ->)]; reflexivity.
Qed.

Lemma serve_cons run unicode_lower msg msgs s :
  serve run unicode_lower (msg :: msgs) s
  = serve run unicode_lower msgs (on_message run unicode_lower msg s).2.
Proof.
  unfold serve. simpl. unfold mbind, M_bind.
  rewrite on_message_ok. reflexivity.
Qed.

(** What one message adds: nothing, or one level command for a pin of the
    registry together with one status message. *)
Lemma on_message_growth run unicode_lower msg s :
  exists nc nb,
    calls (on_message run unicode_lower msg s).2 = calls s ++ nc
    /\ bus (on_message run unicode_lower msg s).2 = bus s ++ nb
    /\ length nc = length nb /\ (length nb <= 1)%nat
    /\ Forall level_call nc /\ Forall status_echo nb.
Proof.
  destruct (on_message_cases run unicode_lower msg s)
    as [->|(g & l & pin & leds & text & _ & Hline & _ & _ & ->)].
  - exists [], []. rewrite !app_nil_r. repeat split; auto.
  - eexists [_], [_]. repeat split; auto.
    + repeat constructor. exists pin, (level_for (value_of unicode_lower (strip text))).
      split; [exact (line_in_registry _ _ _ Hline)|reflexivity].
    + repeat constructor. exists g, l, (strip text).
      split; [exact (line_registered _ _ _ Hline)|].
      split; [reflexivity|apply strip_idempotent].
Qed.

Lemma serve_growth run unicode_lower msgs s :
  (serve run unicode_lower msgs s).1 = Ok tt
  /\ exists nc nb,
    calls (serve run unicode_lower msgs s).2 = calls s ++ nc
    /\ bus (serve run unicode_lower msgs s).2 = bus s ++ nb
    /\ length nc = length nb /\ (length nb <= length msgs)%nat
    /\ Forall level_call nc /\ Forall status_echo nb.
Proof.
  revert s. induction msgs as [|msg msgs IH]; intros s.
  - split; [reflexivity|]. exists [], []. cbn. rewrite !app_nil_r. repeat split; auto.
  - rewrite serve_cons.
    destruct (IH (on_message run unicode_lower msg s).2)
      as [Hok (nc & nb & -> & -> & Hlen & Hle & Hnc & Hnb)].
    split; [exact Hok|].
    destruct (on_message_growth run unicode_lower msg s)
      as (nc1 & nb1 & -> & -> & Hlen1 & Hle1 & Hnc1 & Hnb1).
    exists (nc1 ++ nc), (nb1 ++ nb). rewrite <- !app_assoc.
    split; [reflexivity|]. split; [reflexivity|].
    rewrite !length_app. split; [lia|]. split; [simpl; lia|].
    split; apply Forall_app; done.
Qed.

Lemma covers_registry_serve run unicode_lower msgs s :
  covers_registry s = true ->
  covers_registry (serve run unicode_lower msgs s).2 = true.
Proof.
  revert s. induction msgs as [|msg msgs IH]; intros s Hcov; [exact Hcov|].
  rewrite serve_cons. apply IH, covers_registry_on_message, Hcov.
Qed.

(** X3.  A sequence of messages never raises; it runs one subprocess for
    each status message it publishes and at most one per message; every
    subprocess it runs is a level command for a pin of the registry (no
    text of a message reaches the shell), and everything it asks of the
    MQTT client is a status message for a registered line. *)
Theorem serve_drives_and_echoes_in_pairs
    (run : list call -> pystr -> proc_outcome) (unicode_lower : pystr -> pystr)
    (msgs : list MQTTMessage) (s : Sys) :
  let r := serve run unicode_lower msgs s in
  r.1 = Ok tt
  /\ length (new_calls s r.2) = length (new_bus s r.2)
  /\ (length (new_bus s r.2) <= length msgs)%nat
  /\ Forall level_call (new_calls s r.2)
  /\ Forall status_echo (new_bus s r.2).
Proof.
  destruct (serve_growth run unicode_lower msgs s)
    as [Hok (nc & nb & Hc & Hb & Hlen & Hle & Hnc & Hnb)].
  cbn zeta. rewrite (new_calls_app _ _ _ Hc), (new_bus_app _ _ _ Hb). done.
Qed.

(** X4.  After a sequence of messages the recorded state of a registered
    line is the value of the last command for that line among them, and
    what it was before when there is none: commands for other lines,
    messages on other topics and undecodable payloads do not count. *)
Theorem recorded_state_is_last_command
    (run : list call -> pystr -> proc_outcome) (unicode_lower : pystr -> pystr)
    (msgs : list MQTTMessage) (s : Sys) (g l : pystr) (pin : Z) :
  line g l = Some pin ->
  covers_registry s = true ->
  line_state (serve run unicode_lower msgs s).2 g l
  = match last_command unicode_lower g l msgs with
    | Some v => Some v
    | None => line_state s g l
    end.
Proof.
  intros Hline. revert s. induction msgs as [|msg msgs IH]; intros s Hcov; [reflexivity|].
  rewrite serve_cons, IH by (apply covers_registry_on_message, Hcov).
  simpl. destruct (last_command unicode_lower g l msgs); [reflexivity|].
  exact (on_message_line_state run unicode_lower msg s g l pin Hline Hcov).
Qed.

Lemma recorded_state_is_last_command_witness :
  line (py "fpga1") (py "nate") = Some 19%Z
  /\ covers_registry module_state = true
  /\ line_state
       (serve always_ok no_case
          [ mkMsg (py "fpga/command/fpga1/nate") (ascii_bytes "true");
            mkMsg (py "fpga/command/fpga1/dan") (ascii_bytes "false");
            mkMsg (py "fpga/command/fpga1/nate") [xff] ]
          module_state).2 (py "fpga1") (py "nate")
     = Some true.
Proof.
  split; [reflexivity|]. split; [reflexivity|].
  exact (recorded_state_is_last_command always_ok no_case
           [ mkMsg (py "fpga/command/fpga1/nate") (ascii_bytes "true");
             mkMsg (py "fpga/command/fpga1/dan") (ascii_bytes "false");
             mkMsg (py "fpga/command/fpga1/nate") [xff] ]
           module_state (py "fpga1") (py "nate") 19%Z eq_refl eq_refl).
Defined.

(** ** The shape of [current_state] *)

Lemma line_entry g l pin : line g l = Some pin -> (g, l, pin) ∈ registry_entries.
Proof.
  unfold line, registry_entries.
  destruct (dict_get GPIO_PINS g) as [pins|] eqn:Eg; [|discriminate].
  intros El. apply dict_get_elem_of in Eg, El.
  apply list_elem_of_In, in_flat_map. exists (g, pins). split.
  - apply list_elem_of_In, Eg.
  - apply in_map_iff. exists (l, pin). split; [reflexivity|].
    apply list_elem_of_In, El.
Qed.

(** No two lines of the registry are bound to the same pin. *)
Lemma line_inj g l g' l' pin :
  line g l = Some pin -> line g' l' = Some pin -> (g, l) = (g', l').
Proof.
  intros H1 H2. apply line_entry, list_elem_of_lookup in H1 as [i Hi].
  apply line_entry, list_elem_of_lookup in H2 as [j Hj].
  assert (Hnd : NoDup (snd <$> registry_entries))
    by (apply (bool_decide_unpack _); vm_compute; exact I).
  assert (i = j) as ->.
  { apply (NoDup_lookup _ i j pin Hnd); rewrite list_lookup_fmap.
    - by rewrite Hi.
    - by rewrite Hj. }
  rewrite Hi in Hj. by injection Hj as -> ->.
Qed.

Lemma initial_state_matches s :
  current_state s = initial_current_state -> state_matches_registry s.
Proof.
  intros Hs g l. unfold line_state. rewrite Hs. split.
  - intros [b Hb].
    destruct (initial_current_state !! g) as [leds|] eqn:Eg; [|discriminate].
    simpl in Hb. unfold initial_current_state in Eg.
    apply elem_of_list_to_map_2 in Eg.
    repeat (apply elem_of_cons in Eg as [Eg|Eg]); try (by inversion Eg);
      injection Eg as -> ->; unfold all_off in Hb;
      apply elem_of_list_to_map_2 in Hb;
      repeat (apply elem_of_cons in Hb as [Hb|Hb]); try (by inversion Hb);
      injection Hb as -> ->; reflexivity.
  - intros Hreg. destruct (registered_line _ _ Hreg) as [pin Hline].
    pose proof (initial_line_state _ _ _ Hline) as H. unfold line_state in H.
    change (current_state module_state) with initial_current_state in H.
    rewrite H. eauto.
Qed.

Lemma state_matches_on_message run unicode_lower msg s :
  state_matches_registry s ->
  state_matches_registry (on_message run unicode_lower msg s).2.
Proof.
  intros Hm.
  destruct (on_message_cases run unicode_lower msg s)
    as [->|(g & l & pin & leds & text & _ & Hline & Hst & _ & ->)]; [exact Hm|].
  intros g' l'. cbn [snd].
  change (is_Some (line_state (set_current_state
            (<[g := <[l := value_of unicode_lower (strip text)]> leds]> (current_state s)) s)
            g' l') <-> registered g' l' = true).
  destruct (decide ((g', l') = (g, l))) as [[= -> ->]|Hne].
  - rewrite line_state_update, (line_registered _ _ _ Hline). split; eauto.
  - rewrite (line_state_update_other _ _ _ _ _ _ _ Hst Hne). apply Hm.
Qed.

Lemma state_matches_serve run unicode_lower msgs s :
  state_matches_registry s ->
  state_matches_registry (serve run unicode_lower msgs s).2.
Proof.
  revert s. induction msgs as [|msg msgs IH]; intros s Hm; [exact Hm|].
  rewrite serve_cons. apply IH, state_matches_on_message, Hm.
Qed.

(** X5.  Starting from the table the module is loaded with, after any
    sequence of messages [current_state] holds a value for a pair exactly
    when the pair is a line of the registry: no entry is ever added for an
    unknown FPGA or LED, and none goes missing. *)
Theorem serve_keeps_registry_shape
    (run : list call -> pystr -> proc_outcome) (unicode_lower : pystr -> pystr)
    (msgs : list MQTTMessage) (s : Sys) (g l : pystr) :
  current_state s = initial_current_state ->
  (is_Some (line_state (serve run unicode_lower msgs s).2 g l)
   <-> registered g l = true).
Proof.
  intros Hs. apply state_matches_serve, initial_state_matches, Hs.
Qed.

Lemma serve_keeps_registry_shape_witness :
  current_state module_state = initial_current_state
  /\ (is_Some (line_state
                 (serve always_ok no_case
                    [mkMsg (py "fpga/command/fpga9/dan") (ascii_bytes "true")]
                    module_state).2 (py "fpga9") (py "dan"))
      <-> registered (py "fpga9") (py "dan") = true).
Proof.
  split; [reflexivity|].
  exact (serve_keeps_registry_shape always_ok no_case
           [mkMsg (py "fpga/command/fpga9/dan") (ascii_bytes "true")]
           module_state (py "fpga9") (py "dan") eq_refl).
Defined.

(** ** Subscriptions *)

Lemma on_connect_eq rc s :
  (on_connect rc s).1 = Ok tt
  /\ calls (on_connect rc s).2 = calls s
  /\ current_state (on_connect rc s).2 = current_state s
  /\ bus (on_connect rc s).2
     = bus s ++ (if Z.eqb rc 0
                 then map (fun gl => Subscribe (command_topic gl.1 gl.2)) registry_lines
                 else []).
Proof.
  unfold on_connect. destruct (Z.eqb rc 0).
  - destruct s. cbv -[app py]. rewrite <- !app_assoc. done.
  - cbn. by rewrite app_nil_r.
Qed.

Lemma command_topics_eq :
  command_topics = map (fun gl => command_topic gl.1 gl.2) registry_lines.
Proof. vm_compute. reflexivity. Qed.

Lemma registered_topic g l : registered g l = true -> command_topic g l ∈ command_topics.
Proof.
  intros Hreg. rewrite command_topics_eq.
  apply list_elem_of_fmap. exists (g, l). split; [reflexivity|].
  exact (registered_in_lines g l Hreg).
Qed.

Lemma topic_registered t :
  t ∈ command_topics -> exists g l, registered g l = true /\ t = command_topic g l.
Proof.
  rewrite command_topics_eq. intros H.
  apply list_elem_of_fmap in H as ([g l] & -> & Hin).
  exists g, l. split; [|reflexivity].
  pose proof registry_lines_registered as Hall. rewrite Forall_forall in Hall.
  exact (Hall _ Hin).
Qed.

(** X6.  [on_connect] never raises and runs no subprocess.  When the
    connection was accepted it subscribes, in registry order and once each,
    to the command topic of every line of the registry and to nothing else,
    so the user names it spells out agree with [GPIO_PINS]; when the
    connection was refused it subscribes to nothing. *)
Theorem on_connect_subscribes_each_line (rc : Z) (s : Sys) :
  (on_connect rc s).1 = Ok tt
  /\ new_calls s (on_connect rc s).2 = []
  /\ current_state (on_connect rc s).2 = current_state s
  /\ new_bus s (on_connect rc s).2
     = (if Z.eqb rc 0
        then map (fun gl => Subscribe (command_topic gl.1 gl.2)) registry_lines
        else [])
  /\ NoDup (map (fun gl => command_topic gl.1 gl.2) registry_lines)
  /\ (forall g l, registered g l = true <-> (g, l) ∈ registry_lines).
Proof.
  destruct (on_connect_eq rc s) as (Hok & Hcalls & Hst & Hbus).
  split; [exact Hok|]. split.
  { apply new_calls_app. by rewrite Hcalls, app_nil_r. }
  split; [exact Hst|]. split; [exact (new_bus_app _ _ _ Hbus)|].
  split; [apply (bool_decide_unpack _); vm_compute; exact I|].
  intros g l. split; [apply registered_in_lines|].
  intros Hin. pose proof registry_lines_registered as Hall.
  rewrite Forall_forall in Hall. exact (Hall _ Hin).
Qed.

(** X7.  [on_message] acts on exactly the topics [on_connect] subscribes
    to.  A message on any other topic changes nothing at all; a message on
    a subscribed topic with a payload that is valid UTF-8 runs one
    subprocess and publishes one status message with the stripped text. *)
Theorem on_message_acts_on_subscribed_topics
    (run : list call -> pystr -> proc_outcome) (unicode_lower : pystr -> pystr)
    (msg : MQTTMessage) (s : Sys) :
  (topic msg ∉ command_topics ->
     on_message run unicode_lower msg s = (Ok tt, s))
  /\ (topic msg ∈ command_topics ->
      covers_registry s = true ->
      forall text, utf8_decode (payload msg) = Some text ->
        length (new_calls s (on_message run unicode_lower msg s).2) = 1%nat
        /\ new_bus s (on_message run unicode_lower msg s).2
           = [Publish (spec_status_topic (topic msg)) (strip text)]).
Proof.
  split.
  - intros Hnot.
    destruct (on_message_cases run unicode_lower msg s)
      as [H|(g & l & pin & leds & text & Hsplit & Hline & _)]; [exact H|].
    exfalso. apply Hnot. rewrite (split_command_topic _ _ _ Hsplit).
    apply registered_topic, (line_registered _ _ _ Hline).
  - intros Hin Hcov text Hdec.
    destruct (topic_registered _ Hin) as (g & l & Hreg & Htopic).
    destruct (registered_line _ _ Hreg) as [pin Hline].
    pose proof (command_topic_split g l Hreg) as Hsplit. rewrite <- Htopic in Hsplit.
    destruct (covers_registry_lookup _ _ _ _ Hcov Hline) as [leds Hleds].
    rewrite (on_message_eq _ _ _ _ _ _ _ _ _ Hsplit Hline Hleds Hdec). cbn [snd].
    destruct (command_topic_shape _ _ _ Hsplit) as [_ ->].
    split.
    + erewrite new_calls_app; [|reflexivity]. reflexivity.
    + apply new_bus_app. reflexivity.
Qed.

Lemma on_message_acts_on_subscribed_topics_witness :
  (py "fpga/status/fpga1/dan" ∉ command_topics)
  /\ on_message always_ok no_case
       (mkMsg (py "fpga/status/fpga1/dan") (ascii_bytes "true")) module_state
     = (Ok tt, module_state)
  /\ (py "fpga/command/fpga2/loaded" ∈ command_topics)
  /\ covers_registry module_state = true
  /\ utf8_decode (ascii_bytes " on ") = Some (py " on ")
  /\ new_bus module_state
       (on_message always_refused no_case
          (mkMsg (py "fpga/command/fpga2/loaded") (ascii_bytes " on ")) module_state).2
     = [Publish (spec_status_topic (py "fpga/command/fpga2/loaded")) (strip (py " on "))].
Proof.
  assert (Hout : py "fpga/status/fpga1/dan" ∉ command_topics)
    by (apply (bool_decide_unpack _); vm_compute; exact I).
  assert (Hin : py "fpga/command/fpga2/loaded" ∈ command_topics)
    by (apply (bool_decide_unpack _); vm_compute; exact I).
  split; [exact Hout|]. split.
  { exact (proj1 (on_message_acts_on_subscribed_topics always_ok no_case
             (mkMsg (py "fpga/status/fpga1/dan") (ascii_bytes "true")) module_state)
             Hout). }
  split; [exact Hin|]. split; [reflexivity|]. split; [reflexivity|].
  exact (proj2 (proj2 (on_message_acts_on_subscribed_topics always_refused no_case
           (mkMsg (py "fpga/command/fpga2/loaded") (ascii_bytes " on ")) module_state)
           Hin eq_refl (py " on ") eq_refl)).
Defined.

(** ** The last level asked of each pin *)

Section Levels.

Variable subprocess_run : list call -> pystr -> proc_outcome.

Lemma test_all_leds_eq s :
  test_all_leds subprocess_run s = for_each registry_pins (blink_pin subprocess_run) s.
Proof. exact (for_each_pins GPIO_PINS (blink_pin subprocess_run) s). Qed.

Lemma blink_pin_eq pin s :
  blink_pin subprocess_run pin s
  = (Ok tt, ran subprocess_run (level_cmd pin High)
              (ran subprocess_run (level_cmd pin Low) s)).
Proof.
  unfold blink_pin, mbind, M_bind.
  rewrite set_pin_low_eq, set_pin_high_eq. reflexivity.
Qed.

(** The loop of [test_all_leds]: for each pin a drive-low command, then a
    drive-high command, whatever each one reports. *)
Lemma blink_loop_spec pins s :
  exists new,
    for_each pins (blink_pin subprocess_run) s = (Ok tt, with_calls new s)
    /\ map fst new = flat_map (fun pin => [level_cmd pin Low; level_cmd pin High]) pins
    /\ forall p, last_level (calls s ++ new) p
                 = if decide (p ∈ pins) then Some High else last_level (calls s) p.
Proof.
  revert s. induction pins as [|pin pins IH]; intros s.
  - exists []. rewrite with_calls_nil, app_nil_r. repeat split.
  - simpl. unfold mbind, M_bind. rewrite blink_pin_eq.
    destruct (IH (ran subprocess_run (level_cmd pin High)
                    (ran subprocess_run (level_cmd pin Low) s)))
      as (new & -> & Hcmds & Hlast).
    rewrite !ran_with_calls, !with_calls_app.
    eexists. split; [reflexivity|]. split; [simpl; by rewrite Hcmds|].
    intros p. specialize (Hlast p).
    rewrite !ran_with_calls in Hlast. cbn [calls with_calls set_calls] in Hlast.
    rewrite <- !app_assoc in Hlast. cbn [app] in Hlast.
    cbn [calls with_calls set_calls]. rewrite <- ?app_assoc. cbn [app]. rewrite Hlast.
    destruct (decide (p ∈ pins)) as [Hin|Hnin].
    + rewrite decide_True; [reflexivity|by right].
    + change (calls s ++ [?a; ?b]) with (calls s ++ [a] ++ [b]).
      rewrite app_assoc, !last_level_level_cmd.
      destruct (decide (pin = p)) as [->|Hne].
      * rewrite decide_True; [reflexivity|left].
      * rewrite decide_False; [reflexivity|].
        intros H. apply elem_of_cons in H as [->|H]; contradiction.
Qed.


(** When the loop of [setup_gpio] ends normally it ran, for each pin, the
    command that configures it and then the drive-high command. *)
Lemma setup_loop_levels pins s s' :
  for_each pins (setup_pin subprocess_run) s = (Ok tt, s') ->
  exists new, s' = with_calls new s
    /\ map fst new = flat_map (fun pin => [output_cmd pin; level_cmd pin High]) pins
    /\ forall p, last_level (calls s ++ new) p
                 = if decide (p ∈ pins) then Some High else last_level (calls s) p.
Proof.
  revert s. induction pins as [|pin pins IH]; intros s.
  - intros [= <-]. exists []. rewrite with_calls_nil, app_nil_r. repeat split.
  - simpl. unfold mbind, M_bind. rewrite setup_pin_eq.
    destruct (succeeded (subprocess_run (calls s) (output_cmd pin))); [|discriminate].
    destruct (succeeded (subprocess_run (calls (ran subprocess_run (output_cmd pin) s))
                           (level_cmd pin High))); [|discriminate].
    intros Hrest. apply IH in Hrest as (new & -> & Hcmds & Hlast).
    rewrite !ran_with_calls, !with_calls_app.
    eexists. split; [reflexivity|]. split; [simpl; by rewrite Hcmds|].
    intros p. specialize (Hlast p).
    rewrite !ran_with_calls in Hlast. cbn [calls with_calls set_calls] in Hlast.
    rewrite <- !app_assoc in Hlast. cbn [app] in Hlast.
    cbn [calls with_calls set_calls]. rewrite <- ?app_assoc. cbn [app]. rewrite Hlast.
    destruct (decide (p ∈ pins)) as [Hin|Hnin].
    + rewrite decide_True; [reflexivity|by right].
    + change (calls s ++ [?a; ?b]) with (calls s ++ [a] ++ [b]).
      rewrite app_assoc, last_level_level_cmd, last_level_output_cmd.
      destruct (decide (pin = p)) as [->|Hne].
      * rewrite decide_True; [reflexivity|left].
      * rewrite decide_False; [reflexivity|].
        intros H. apply elem_of_cons in H as [->|H]; contradiction.
Qed.

End Levels.

(** ** The LED test and the start of the program *)

Lemma test_all_leds_spec run s :
  exists new,
    test_all_leds run s = (Ok tt, with_calls new s)
    /\ map fst new
       = flat_map (fun pin => [level_cmd pin Low; level_cmd pin High]) registry_pins
    /\ forall p, last_level (calls s ++ new) p
                 = if decide (p ∈ registry_pins) then Some High
                   else last_level (calls s) p.
Proof. rewrite test_all_leds_eq. apply blink_loop_spec. Qed.

(** X8.  [test_all_leds] never raises and looks at no result: for every pin
    of the registry, in registry order, it runs the drive-low command and
    then the drive-high command, so it ends with every registered line last
    driven high; it changes neither [current_state] nor anything on the
    bus. *)
Theorem test_all_leds_blinks_every_pin
    (run : list call -> pystr -> proc_outcome) (s : Sys) :
  let r := test_all_leds run s in
  r.1 = Ok tt
  /\ map fst (new_calls s r.2)
     = flat_map (fun pin => [level_cmd pin Low; level_cmd pin High]) registry_pins
  /\ current_state r.2 = current_state s
  /\ bus r.2 = bus s
  /\ (forall g l pin, line g l = Some pin -> last_level (calls r.2) pin = Some High).
Proof.
  destruct (test_all_leds_spec run s) as (new & -> & Hcmds & Hlast). cbn zeta.
  cbn [fst snd]. split; [reflexivity|].
  split; [by erewrite new_calls_app|]. split; [reflexivity|]. split; [reflexivity|].
  intros g l pin Hline. cbn [calls with_calls set_calls]. rewrite Hlast.
  apply decide_True, (line_in_registry _ _ _ Hline).
Qed.

Lemma init_levels run s1 :
  init run module_state = (Ok tt, s1) ->
  exists new, s1 = set_handlers true (with_calls new module_state)
    /\ map fst new
       = flat_map (fun pin => [output_cmd pin; level_cmd pin High]) registry_pins.
Proof.
  rewrite init_eq, setup_gpio_eq.
  destruct (for_each registry_pins (setup_pin run) module_state) as [[[]|e] s] eqn:E;
    [|discriminate].
  intros [= <-]. apply setup_loop_levels in E as (new & -> & Hcmds & _). eauto.
Qed.

Lemma program_after_init sub broker_up s1 :
  init sub module_state = (Ok tt, s1) ->
  exists blink,
    map fst blink
    = flat_map (fun pin => [level_cmd pin Low; level_cmd pin High]) registry_pins
    /\ (forall p, last_level (calls s1 ++ blink) p
                  = if decide (p ∈ registry_pins) then Some High
                    else last_level (calls s1) p)
    /\ program sub broker_up
       = if broker_up
         then (Serving,
               emit LoopStart (set_running true (emit Connect
                 (set_mqtt_client true (with_calls blink s1)))))
         else (Crashed ConnectionRefusedError,
               set_mqtt_client true (with_calls blink s1)).
Proof.
  intros Hinit. destruct (test_all_leds_spec sub s1) as (blink & Htest & Hcmds & Hlast).
  exists blink. split; [exact Hcmds|]. split; [exact Hlast|].
  unfold program, main, mbind at 1, M_bind at 1. rewrite Hinit.
  unfold run, mbind at 1, M_bind at 1. rewrite Htest.
  unfold setup_mqtt, mbind, M_bind, modify, raise.
  destruct broker_up; reflexivity.
Qed.



(** ** The recorded state and the levels while serving *)

Lemma covers_registry_initial s :
  current_state s = initial_current_state -> covers_registry s = true.
Proof. unfold covers_registry. intros ->. reflexivity. Qed.

Lemma line_state_initial s g l pin :
  current_state s = initial_current_state ->
  line g l = Some pin -> line_state s g l = Some false.
Proof.
  intros Hs Hline. unfold line_state. rewrite Hs.
  exact (initial_line_state g l pin Hline).
Qed.

(** What holds when the program reaches its serving loop. *)
Lemma serving_facts sub broker_up :
  (program sub broker_up).1 = Serving ->
  current_state (program sub broker_up).2 = initial_current_state
  /\ mqtt_client (program sub broker_up).2 = true
  /\ forall p, p ∈ registry_pins ->
       last_level (calls (program sub broker_up).2) p = Some High.
Proof.
  destruct (init sub module_state) as [[[]|e] s1] eqn:Hinit.
  - destruct (init_levels _ _ Hinit) as (new & -> & Hnew).
    destruct (program_after_init sub broker_up _ Hinit) as (blink & _ & Hlast & ->).
    destruct broker_up; [|discriminate]. intros _. cbn [fst snd].
    split; [reflexivity|]. split; [reflexivity|].
    intros p Hp. specialize (Hlast p). rewrite decide_True in Hlast by exact Hp.
    exact Hlast.
  - destruct (init_spec _ _ _ Hinit) as (new & -> & [msg ->] & _).
    rewrite (program_init_raises sub broker_up msg _ Hinit). discriminate.
Qed.

Lemma tracks_on_message sub unicode_lower msg s :
  state_tracks_levels s ->
  state_tracks_levels (on_message sub unicode_lower msg s).2.
Proof.
  intros Htr.
  destruct (on_message_cases sub unicode_lower msg s)
    as [->|(g & l & pin & leds & text & _ & Hline & Hst & _ & ->)]; [exact Htr|].
  intros g' l' pin' Hline'. cbn [snd].
  change (exists v,
    line_state (set_current_state
      (<[g := <[l := value_of unicode_lower (strip text)]> leds]> (current_state s)) s)
      g' l' = Some v
    /\ last_level
         (calls s ++ [(level_cmd pin (level_for (value_of unicode_lower (strip text))),
                       sub (calls s)
                         (level_cmd pin (level_for (value_of unicode_lower (strip text)))))])
         pin' = Some (level_for v)).
  rewrite last_level_level_cmd.
  destruct (decide ((g', l') = (g, l))) as [[= -> ->]|Hne].
  - rewrite Hline in Hline'. injection Hline' as <-.
    exists (value_of unicode_lower (strip text)).
    split; [apply line_state_update|]. by rewrite decide_True.
  - destruct (Htr g' l' pin' Hline') as (v & Hv & Hlv).
    exists v. rewrite (line_state_update_other _ _ _ _ _ _ _ Hst Hne).
    split; [exact Hv|]. rewrite decide_False; [exact Hlv|].
    intros <-. apply Hne. exact (line_inj _ _ _ _ _ Hline' Hline).
Qed.

Lemma tracks_serve sub unicode_lower msgs s :
  state_tracks_levels s ->
  state_tracks_levels (serve sub unicode_lower msgs s).2.
Proof.
  revert s. induction msgs as [|msg msgs IH]; intros s Htr; [exact Htr|].
  rewrite serve_cons. apply IH, tracks_on_message, Htr.
Qed.

(** X10.  Once the program serves, and after any sequence of messages, the
    recorded state of every registered line agrees with the last level
    command that was run for its pin: a line recorded on was last driven
    low, a line recorded off was last driven high. *)
Theorem state_tracks_levels_while_serving
    (sub : list call -> pystr -> proc_outcome) (unicode_lower : pystr -> pystr)
    (broker_up : bool) (msgs : list MQTTMessage) :
  (program sub broker_up).1 = Serving ->
  state_tracks_levels (serve sub unicode_lower msgs (program sub broker_up).2).2.
Proof.
  intros Hserving. destruct (serving_facts sub broker_up Hserving) as (Hst & _ & Hlast).
  apply tracks_serve. intros g l pin Hline. exists false.
  split; [exact (line_state_initial _ _ _ _ Hst Hline)|].
  exact (Hlast pin (line_in_registry _ _ _ Hline)).
Qed.

Lemma state_tracks_levels_while_serving_witness :
  (program always_ok true).1 = Serving
  /\ state_tracks_levels
       (serve always_ok no_case
          [mkMsg (py "fpga/command/fpga3/dan") (ascii_bytes "TRUE")]
          (program always_ok true).2).2.
Proof.
  split; [reflexivity|].
  exact (state_tracks_levels_while_serving always_ok no_case true
           [mkMsg (py "fpga/command/fpga3/dan") (ascii_bytes "TRUE")] eq_refl).
Defined.

(** ** A signal while serving *)





(** ** Errors of single operations *)

(** X12.  [handle_pin_command] is all or nothing.  It returns normally
    exactly when the pair is a line of the registry and [current_state] has
    the entry of its FPGA; then it has recorded the value and run one
    subprocess.  Otherwise it raises [KeyError], and it has then recorded
    nothing and run nothing. *)
Theorem handle_pin_command_all_or_nothing
    (sub : list call -> pystr -> proc_outcome) (unicode_lower : pystr -> pystr)
    (g l v : pystr) (s : Sys) :
  let r := handle_pin_command sub unicode_lower g l v s in
  (r.1 = Ok tt
   /\ registered g l = true /\ is_Some (current_state s !! g)
   /\ line_state r.2 g l = Some (value_of unicode_lower v)
   /\ length (new_calls s r.2) = 1%nat)
  \/ ((exists key, r.1 = Raise (KeyError key))
      /\ (registered g l = false \/ current_state s !! g = None)
      /\ r.2 = s).
Proof.
  destruct (registered g l) eqn:Hreg.
  - destruct (registered_line _ _ Hreg) as [pin Hline].
    destruct (current_state s !! g) as [leds|] eqn:Hst.
    + left. rewrite (handle_pin_command_eq _ _ _ _ _ _ _ _ Hline Hst). cbn [fst snd].
      split; [reflexivity|]. split; [reflexivity|]. split; [eauto|].
      split; [apply line_state_update|].
      erewrite new_calls_app; [|reflexivity]. reflexivity.
    + right. rewrite (handle_pin_command_no_state _ _ _ _ _ _ _ Hline Hst).
      cbn [fst snd]. eauto.
  - right. destruct (handle_pin_command_unregistered sub unicode_lower g l v s Hreg)
      as [key ->]. cbn [fst snd]. eauto.
Qed.

(** What the loop of [setup_gpio] leaves behind when it raises: the pins
    before the failing one were configured and driven high with success,
    and the message of the exception names the pin and the step of the one
    subprocess that did not succeed, which is the last one that was run. *)
Lemma setup_loop_error sub pins s e s' :
  for_each pins (setup_pin sub) s = (Raise e, s') ->
  exists before pin rest pre o,
    pins = before ++ pin :: rest
    /\ s' = with_calls (pre ++ [o]) s
    /\ Forall (fun c => succeeded c.2 = true) pre
    /\ succeeded o.2 = false
    /\ ((map fst pre = flat_map (fun p => [output_cmd p; level_cmd p High]) before
         /\ o.1 = output_cmd pin
         /\ e = Exception (py "Failed to set GPIO " ++ format_int pin ++ py " as output"))
        \/ (map fst pre = flat_map (fun p => [output_cmd p; level_cmd p High]) before
                          ++ [output_cmd pin]
            /\ o.1 = level_cmd pin High
            /\ e = Exception (py "Failed to set GPIO " ++ format_int pin ++ py " high"))).
Proof.
  revert s. induction pins as [|pin pins IH]; intros s; [discriminate|].
  simpl. unfold mbind, M_bind. rewrite setup_pin_eq.
  destruct (succeeded (sub (calls s) (output_cmd pin))) eqn:E1.
  - destruct (succeeded (sub (calls (ran sub (output_cmd pin) s)) (level_cmd pin High)))
      eqn:E2.
    + intros Hrest.
      apply IH in Hrest as (before & p & rest & pre & o & -> & -> & Hpre & Ho & Hcase).
      rewrite !ran_with_calls, !with_calls_app.
      eexists (pin :: before), p, rest, (_ :: _ :: pre), o.
      split; [reflexivity|]. split; [reflexivity|].
      split; [repeat constructor; [exact E1|exact E2|exact Hpre]|].
      split; [exact Ho|].
      destruct Hcase as [(Hm & Hc & He)|(Hm & Hc & He)]; [left|right];
        (split; [simpl; by rewrite Hm|done]).
    + intros [= <- <-]. rewrite !ran_with_calls, !with_calls_app.
      eexists [], pin, pins, [_], (_, _).
      split; [reflexivity|]. split; [reflexivity|].
      split; [repeat constructor; exact E1|]. split; [exact E2|].
      right. done.
  - intros [= <- <-]. rewrite ran_with_calls.
    eexists [], pin, pins, [], (_, _).
    split; [reflexivity|]. split; [reflexivity|].
    split; [constructor|]. split; [exact E1|]. left. done.
Qed.

(** X13.  When [setup_gpio] raises, the message of the exception names the
    pin and the step that failed: the last subprocess that was run is the
    configure command ("as output") or the drive-high command ("high") of
    that pin and did not succeed, every subprocess before it succeeded, and
    [current_state] and the bus are untouched. *)
Theorem setup_gpio_error_names_failing_pin
    (sub : list call -> pystr -> proc_outcome) (s s' : Sys) (e : exn) :
  setup_gpio sub s = (Raise e, s') ->
  exists pin pre o,
    pin ∈ registry_pins
    /\ new_calls s s' = pre ++ [o]
    /\ Forall (fun c => succeeded c.2 = true) pre
    /\ succeeded o.2 = false
    /\ ((o.1 = output_cmd pin
         /\ e = Exception (py "Failed to set GPIO " ++ format_int pin ++ py " as output"))
        \/ (o.1 = level_cmd pin High
            /\ e = Exception (py "Failed to set GPIO " ++ format_int pin ++ py " high")))
    /\ current_state s' = current_state s
    /\ bus s' = bus s.
Proof.
  rewrite setup_gpio_eq. intros H.
  apply setup_loop_error in H
    as (before & pin & rest & pre & o & Hpins & -> & Hpre & Ho & Hcase).
  exists pin, pre, o.
  split; [rewrite Hpins; apply elem_of_app; right; left|].
  split; [by apply new_calls_app|]. split; [exact Hpre|]. split; [exact Ho|].
  split; [|done].
  destruct Hcase as [(_ & Hc & He)|(_ & Hc & He)]; [left|right]; done.
Qed.

Lemma setup_gpio_error_names_failing_pin_witness :
  setup_gpio always_refused module_state
  = (Raise (Exception (py "Failed to set GPIO 18 as output")),
     with_calls [(output_cmd 18, Completed 1 [])] module_state)
  /\ exists pin pre o,
       pin ∈ registry_pins
       /\ new_calls module_state
            (with_calls [(output_cmd 18, Completed 1 [])] module_state) = pre ++ [o]
       /\ Forall (fun c => succeeded c.2 = true) pre
       /\ succeeded o.2 = false.
Proof.
  split; [reflexivity|].
  destruct (setup_gpio_error_names_failing_pin always_refused module_state
              (with_calls [(output_cmd 18, Completed 1 [])] module_state)
              (Exception (py "Failed to set GPIO 18 as output")) eq_refl)
    as (pin & pre & o & Hpin & Hnew & Hpre & Ho & _).
  exists pin, pre, o. done.
Defined.

(** X14.  The shell command of an operation tells the pin and the
    operation: two level commands are equal only for the same pin and the
    same level, two configure commands only for the same pin, and a
    configure command is never a level command. *)
Theorem commands_name_pin_and_operation (pin pin' : Z) (lv lv' : Level) :
  (level_cmd pin lv = level_cmd pin' lv' <-> pin = pin' /\ lv = lv')
  /\ (output_cmd pin = output_cmd pin' <-> pin = pin')
  /\ output_cmd pin <> level_cmd pin' lv'.
Proof.
  split; [|split].
  - split; [apply level_cmd_inj_pin|]. by intros [-> ->].
  - split; [|by intros ->]. unfold output_cmd. intros H.
    apply app_inv_head, app_inv_tail in H. exact (format_int_inj _ _ H).
  - apply output_cmd_not_level.
Qed.

(** ** Payloads *)

Lemma utf8_decode_N_ascii bs :
  Forall (fun b => b < 128) bs -> utf8_decode_N bs = Some bs.
Proof.
  induction 1 as [|b bs Hb _ IH]; [reflexivity|].
  simpl. apply N.ltb_lt in Hb. rewrite Hb, IH. reflexivity.
Qed.

(** X15.  A payload of ASCII bytes is always decoded, to the same
    characters: on a subscribed topic it is never dropped as undecodable. *)
Theorem ascii_payload_decodes
    (sub : list call -> pystr -> proc_outcome) (unicode_lower : pystr -> pystr)
    (msg : MQTTMessage) (s : Sys) :
  Forall (fun b => Byte.to_N b < 128) (payload msg) ->
  utf8_decode (payload msg) = Some (map Byte.to_N (payload msg))
  /\ (topic msg ∈ command_topics -> covers_registry s = true ->
      new_bus s (on_message sub unicode_lower msg s).2
      = [Publish (spec_status_topic (topic msg)) (strip (map Byte.to_N (payload msg)))]).
Proof.
  intros Hascii.
  assert (Hdec : utf8_decode (payload msg) = Some (map Byte.to_N (payload msg))).
  { unfold utf8_decode. apply utf8_decode_N_ascii.
    rewrite Forall_forall in Hascii. apply Forall_forall.
    intros c Hc. apply list_elem_of_fmap in Hc as (b & -> & Hb). exact (Hascii b Hb). }
  split; [exact Hdec|]. intros Hin Hcov.
  destruct (topic_registered _ Hin) as (g & l & Hreg & Htopic).
  destruct (registered_line _ _ Hreg) as [pin Hline].
  pose proof (command_topic_split g l Hreg) as Hsplit. rewrite <- Htopic in Hsplit.
  destruct (covers_registry_lookup _ _ _ _ Hcov Hline) as [leds Hleds].
  rewrite (on_message_eq _ _ _ _ _ _ _ _ _ Hsplit Hline Hleds Hdec). cbn [snd].
  destruct (command_topic_shape _ _ _ Hsplit) as [_ ->].
  apply new_bus_app. reflexivity.
Qed.

Lemma ascii_payload_decodes_witness :
  Forall (fun b => Byte.to_N b < 128) (ascii_bytes "on")
  /\ utf8_decode (ascii_bytes "on") = Some (map Byte.to_N (ascii_bytes "on")).
Proof.
  assert (H : Forall (fun b => Byte.to_N b < 128) (ascii_bytes "on"))
    by (repeat constructor).
  split; [exact H|].
  exact (proj1 (ascii_payload_decodes always_ok no_case
           (mkMsg (py "fpga/command/fpga1/dan") (ascii_bytes "on")) module_state H)).
Defined.

(** * The web server script *)

(** X16.  The exit status of the web server script is 0 or 1, and it is 0
    only when the page was found (above the script, where the script then
    moves to, or in the current directory) and the server, once listening,
    was stopped from the keyboard or returned; an [OSError] gives 1 whatever
    its [errno].  The script listens on no port but 8080, and never listens
    when the page is in neither place; it changes directory only when the
    page is above the script, and before anything else. *)
Theorem webserver_exit_status (env : WebServer.Env) :
  let events := (WebServer.main env).1 in
  let status := WebServer.exit_status (WebServer.main env).2 in
  (status = 0%Z \/ status = 1%Z)
  /\ (status = 0%Z ->
      (WebServer.page_in_parent env = true \/ WebServer.page_in_cwd env = true)
      /\ (WebServer.server env = WebServer.Interrupted
          \/ WebServer.server env = WebServer.Returned)
      /\ WebServer.Listen 8080 ∈ events)
  /\ (forall port, WebServer.Listen port ∈ events ->
      port = 8080%Z
      /\ (WebServer.page_in_parent env = true \/ WebServer.page_in_cwd env = true))
  /\ (WebServer.Chdir ∈ events ->
      WebServer.page_in_parent env = true /\ head events = Some WebServer.Chdir).
Proof.
  destruct env as [inparent incwd chfail ip srv].
  unfold WebServer.main, WebServer.start_server. cbn [WebServer.page_in_parent
    WebServer.page_in_cwd WebServer.chdir_fails WebServer.server].
  destruct inparent, incwd, chfail, srv as [errno msg| |errno msg| |];
    try destruct (Z.eqb errno 98);
    cbn [fst snd negb WebServer.exit_status app];
    (split; [auto|]);
    (split; [first [discriminate | intros _; repeat split; auto; set_solver]|]);
    (split; [intros port Hport; set_unfold;
             repeat (destruct Hport as [Hport|Hport]; try discriminate Hport);
             try contradiction; injection Hport as ->; auto
            |intros Hch; set_unfold;
             repeat (destruct Hch as [Hch|Hch]; try discriminate Hch);
             try contradiction; auto]).
Qed.

Lemma webserver_exit_status_witness :
  WebServer.exit_status
    (WebServer.main (WebServer.mkEnv false true false None WebServer.Interrupted)).2
  = 0%Z
  /\ WebServer.Listen 8080
     ∈ (WebServer.main (WebServer.mkEnv false true false None WebServer.Interrupted)).1.
Proof.
  split; [reflexivity|].
  exact (proj2 (proj2 (proj1 (proj2 (webserver_exit_status
           (WebServer.mkEnv false true false None WebServer.Interrupted))) eq_refl))).
Defined.
